(** * Stock interval price calculator: a model of [app.py]

    The program fetches 5-minute bars from a market-data provider,
    re-expresses their timestamps in the US/Eastern zone, keeps the bars of
    the last ten days, groups them by local date, drops weekends, averages
    the four price fields inside three fixed clock-time windows and exports
    the resulting table as CSV.

    Conventions of the model:
    - an instant is a [Z]: microseconds since 1970-01-01T00:00:00Z;
    - a calendar date is a [Z]: days since 1970-01-01 (proleptic Gregorian);
    - a [float64] price is [NaN] or an exact rational ([Fin q]); the
      arithmetic of the program is carried out exactly on rationals;
    - text is a [string]; the characters that matter to the program
      (letters, digits, punctuation of timestamps and decimals) are ASCII;
    - the user interface and the network are an explicit trace of events. *)

From Stdlib Require Import ZArith QArith Qround String Ascii List Lia.
From Stdlib Require Import Sorting.Sorted Permutation.
From stdpp Require Import base option strings gmap list.

Local Open Scope string_scope.
Local Open Scope list_scope.
Local Open Scope Z_scope.

(** ** Characters and decimal text *)

Module Text.

Definition code (c : ascii) : Z := Z.of_N (N_of_ascii c).

Definition chr (n : Z) : ascii := ascii_of_N (Z.to_N n).

Definition is_digit (c : ascii) : bool := (48 <=? code c) && (code c <=? 57).

Definition digit_val (c : ascii) : option Z :=
  if is_digit c then Some (code c - 48) else None.

Definition digit_chr (d : Z) : ascii := chr (48 + d).

(** [str.isalpha] on one ASCII character: a letter of either case. *)
Definition char_isalpha (c : ascii) : bool :=
  ((65 <=? code c) && (code c <=? 90)) || ((97 <=? code c) && (code c <=? 122)).

(** ASCII white space as [str.strip] understands it. *)
Definition char_isspace (c : ascii) : bool :=
  ((9 <=? code c) && (code c <=? 13)) || ((28 <=? code c) && (code c <=? 32)).

Definition char_upper (c : ascii) : ascii :=
  if (97 <=? code c) && (code c <=? 122) then chr (code c - 32) else c.

Fixpoint chars (s : string) : list ascii :=
  match s with
  | EmptyString => []
  | String c r => c :: chars r
  end.

Fixpoint of_chars (l : list ascii) : string :=
  match l with
  | [] => EmptyString
  | c :: r => String c (of_chars r)
  end.

(** Value of a run of decimal digits, most significant first. *)
Fixpoint digits_val (acc : Z) (l : list ascii) : option Z :=
  match l with
  | [] => Some acc
  | c :: r => match digit_val c with
              | Some d => digits_val (10 * acc + d) r
              | None => None
              end
  end.

(** The decimal digits of a natural number, most significant first. *)
Fixpoint digits_of (fuel : nat) (n : Z) (acc : list ascii) : list ascii :=
  match fuel with
  | O => acc
  | S f => if n <? 10 then digit_chr n :: acc
           else digits_of f (n / 10) (digit_chr (n mod 10) :: acc)
  end.

Definition nat_repr (n : Z) : list ascii := digits_of (S (Z.to_nat n)) n [].

(** [n] printed on exactly two, respectively four, digits. *)
Definition pad2 (n : Z) : list ascii := [digit_chr (n / 10); digit_chr (n mod 10)].

Definition pad4 (n : Z) : list ascii :=
  [digit_chr (n / 1000); digit_chr (n / 100 mod 10);
   digit_chr (n / 10 mod 10); digit_chr (n mod 10)].

Definition num2 (a b : ascii) : option Z :=
  x ← digit_val a; y ← digit_val b; Some (10 * x + y).

Definition num4 (a b c d : ascii) : option Z :=
  x ← num2 a b; y ← num2 c d; Some (100 * x + y).

End Text.

(** ** The civil calendar and the clock *)

Module Calendar.

Definition us_per_second : Z := 1000000.
Definition us_per_day : Z := 86400 * us_per_second.

Definition is_leap (y : Z) : bool :=
  (y mod 4 =? 0) && (negb (y mod 100 =? 0) || (y mod 400 =? 0)).

Definition days_in_month (y m : Z) : Z :=
  if m =? 2 then (if is_leap y then 29 else 28)
  else if (m =? 4) || (m =? 6) || (m =? 9) || (m =? 11) then 30
  else 31.

(** Day number of the civil date [y-m-d]. *)
Definition days_from_civil (y m d : Z) : Z :=
  let y' := if m <=? 2 then y - 1 else y in
  let era := y' / 400 in
  let yoe := y' - era * 400 in
  let mp := if m <=? 2 then m + 9 else m - 3 in
  let doy := (153 * mp + 2) / 5 + d - 1 in
  let doe := yoe * 365 + yoe / 4 - yoe / 100 + doy in
  era * 146097 + doe - 719468.

(** Civil date of a day number. *)
Definition civil_from_days (z : Z) : Z * Z * Z :=
  let z' := z + 719468 in
  let era := z' / 146097 in
  let doe := z' - era * 146097 in
  let yoe := (doe - doe / 1460 + doe / 36524 - doe / 146096) / 365 in
  let doy := doe - (365 * yoe + yoe / 4 - yoe / 100) in
  let mp := (5 * doy + 2) / 153 in
  let d := doy - (153 * mp + 2) / 5 + 1 in
  let m := if mp <? 10 then mp + 3 else mp - 9 in
  let y := yoe + era * 400 in
  (if m <=? 2 then y + 1 else y, m, d).

(** [date.weekday()]: Monday is 0 and Sunday is 6; day 0 was a Thursday. *)
Definition weekday (z : Z) : Z := (z + 3) mod 7.

(** [strftime('%A')]. *)
Definition day_name (z : Z) : string :=
  match weekday z with
  | 0 => "Monday" | 1 => "Tuesday" | 2 => "Wednesday" | 3 => "Thursday"
  | 4 => "Friday" | 5 => "Saturday" | _ => "Sunday"
  end.

(** [strftime('%Y-%m-%d')]. *)
Definition strftime_ymd (z : Z) : string :=
  let '(y, m, d) := civil_from_days z in
  Text.of_chars (Text.pad4 y ++ "-"%char :: Text.pad2 m ++ "-"%char :: Text.pad2 d).

Definition valid_date (y m d : Z) : bool :=
  (1 <=? m) && (m <=? 12) && (1 <=? d) && (d <=? days_in_month y m).

(** Reading [YYYY-MM-DD] back into a day number. *)
Definition parse_ymd (s : string) : option Z :=
  match Text.chars s with
  | [y1; y2; y3; y4; "-"%char; m1; m2; "-"%char; d1; d2] =>
      y ← Text.num4 y1 y2 y3 y4; m ← Text.num2 m1 m2; d ← Text.num2 d1 d2;
      if valid_date y m d then Some (days_from_civil y m d) else None
  | _ => None
  end.

(** The bounds of a nanosecond-resolution [Timestamp], in microseconds. *)
Definition timestamp_min : Z := - 9223372036854775.
Definition timestamp_max : Z := 9223372036854775.

Definition in_bounds (t : Z) : bool := (timestamp_min <=? t) && (t <=? timestamp_max).

(** The instant written [YYYY-MM-DD HH:MM:SS], the provider's format (the
    other notations that the library reads are not modelled). *)
Definition parse_timestamp (s : string) : option Z :=
  match Text.chars s with
  | [y1; y2; y3; y4; "-"%char; m1; m2; "-"%char; d1; d2; " "%char;
     h1; h2; ":"%char; i1; i2; ":"%char; s1; s2] =>
      y ← Text.num4 y1 y2 y3 y4; m ← Text.num2 m1 m2; d ← Text.num2 d1 d2;
      h ← Text.num2 h1 h2; mi ← Text.num2 i1 i2; sec ← Text.num2 s1 s2;
      if valid_date y m d && (h <? 24) && (mi <? 60) && (sec <? 60) then
        Some ((days_from_civil y m d * 86400 + h * 3600 + mi * 60 + sec)
              * us_per_second)
      else None
  | _ => None
  end.

(** [pd.to_datetime] on a text in the provider's format; the result is a
    naive timestamp, i.e. a count of microseconds.  [None] stands for the
    exception raised on a text that is not a timestamp or on an instant out
    of the bounds of [Timestamp]. *)
Definition to_datetime (s : string) : option Z :=
  t ← parse_timestamp s;
  if in_bounds t then Some t else None.

(** [pd.to_datetime] on a column of [YYYY-MM-DD] strings (midnight). *)
Definition to_datetime_date (s : string) : option Z :=
  z ← parse_ymd s;
  if in_bounds (z * us_per_day) then Some (z * us_per_day) else None.

(** A clock time [HH:MM] as microseconds since midnight. *)
Definition to_time (s : string) : option Z :=
  match Text.chars s with
  | [h1; h2; ":"%char; m1; m2] =>
      h ← Text.num2 h1 h2; m ← Text.num2 m1 m2;
      if (h <? 24) && (m <? 60) then Some ((h * 3600 + m * 60) * us_per_second)
      else None
  | _ => None
  end.

End Calendar.

(** ** Prices: [float64] values over exact rationals *)

Module Float.

Local Open Scope Q_scope.

Inductive float : Type :=
| NaN
| Fin (q : Q).

(** The parts of a decimal literal before and after its point. *)
Fixpoint split_point (l : list ascii) : list ascii * option (list ascii) :=
  match l with
  | [] => ([], None)
  | c :: r =>
      if Ascii.eqb c "."%char then ([], Some r)
      else let '(a, b) := split_point r in (c :: a, b)
  end.

Definition unsigned_decimal (l : list ascii) : option Q :=
  match split_point l with
  | (ip, None) =>
      match ip with
      | [] => None
      | _ => n ← Text.digits_val 0 ip; Some (inject_Z n)
      end
  | (ip, Some fp) =>
      match ip ++ fp with
      | [] => None
      | ds => n ← Text.digits_val 0 ds;
              Some (n # Z.to_pos (10 ^ Z.of_nat (length fp)))
      end
  end.

(** [pd.to_numeric(..., errors='coerce')] on one cell: a plain decimal
    literal (optional sign, digits, optional point) is read exactly, every
    other text is coerced to [NaN]. *)
Definition to_numeric (s : string) : float :=
  let body (l : list ascii) (neg : bool) :=
    match unsigned_decimal l with
    | Some q => Fin (if neg then - q else q)
    | None => NaN
    end in
  match Text.chars s with
  | "-"%char :: r => body r true
  | "+"%char :: r => body r false
  | l => body l false
  end.

Definition finite_values (l : list float) : list Q :=
  omap (fun x => match x with NaN => None | Fin q => Some q end) l.

Definition Qsum (l : list Q) : Q := fold_right Qplus 0 l.

Definition Qmean (l : list Q) : Q := Qsum l / inject_Z (Z.of_nat (length l)).

(** [Series.mean()] with the default [skipna=True]: the mean of the values
    that are not [NaN], and [NaN] when there is none. *)
Definition nanmean (l : list float) : float :=
  match finite_values l with
  | [] => NaN
  | xs => Fin (Qmean xs)
  end.

(** Equality of prices as numbers. *)
Definition float_eq (x y : float) : Prop :=
  match x, y with
  | NaN, NaN => True
  | Fin a, Fin b => a == b
  | _, _ => False
  end.

(** Round to the nearest integer, ties to the even one. *)
Definition rint (q : Q) : Z :=
  let f := Qfloor q in
  match Qcompare (q - inject_Z f) (1 # 2) with
  | Lt => f
  | Gt => (f + 1)%Z
  | Eq => if Z.even f then f else (f + 1)%Z
  end.

(** [round(x, 2)]. *)
Definition round2 (x : float) : float :=
  match x with
  | NaN => NaN
  | Fin q => Fin (rint (q * 100) # 100)
  end.

(** A count of hundredths in positional notation with as few decimals as
    possible and at least one: the [repr] of a value with two decimals. *)
Definition cents_repr (k : Z) : list ascii :=
  let a := Z.abs k in
  let frac := a mod 100 in
  (if (k <? 0)%Z then ["-"%char] else [])
  ++ Text.nat_repr (a / 100) ++ "."%char ::
  (if (frac mod 10 =? 0)%Z then [Text.digit_chr (frac / 10)] else Text.pad2 frac).

Definition float_repr (q : Q) : string := Text.of_chars (cents_repr (rint (q * 100))).

(** [f"{x:.2f}"]. *)
Definition format_2f (q : Q) : string :=
  let k := rint (q * 100) in
  let a := Z.abs k in
  Text.of_chars ((if (k <? 0)%Z then ["-"%char] else [])
                 ++ Text.nat_repr (a / 100) ++ "."%char :: Text.pad2 (a mod 100)).

End Float.

(** ** Effects: the page, the network and exceptions *)

Module Effects.

(** What the provider's JSON envelope holds under a key: a text, or the
    series of bars keyed by timestamp, in the provider's order. *)
Record RawBar : Type := {
  raw_open : string;
  raw_high : string;
  raw_low : string;
  raw_close : string;
  raw_volume : string
}.

Inductive json : Type :=
| JText (s : string)
| JSeries (bars : list (string * RawBar)).

(** The outcome of [requests.get(...)], [raise_for_status()] and [.json()]. *)
Inductive http_response : Type :=
| ConnectionFailed (reason : string)
| BadStatus (reason : string)
| NotJson (reason : string)
| JsonBody (data : gmap string json).

(** A cell of the result table: a number or a text. *)
Inductive cell : Type :=
| CNum (x : Float.float)
| CStr (s : string).

Record result_row : Type := {
  Date : string;
  Day : string;
  cells : list (string * cell)
}.

(** The text of a message; [ApiError v] stands for the f-string
    [f"API Error: {v}"]. *)
Inductive message : Type :=
| Plain (s : string)
| ApiError (v : json).

Inductive event : Type :=
| Request (symbol : string)
| StError (msg : message)
| StWarning (msg : message)
| StSuccess (msg : message)
| StInfo (msg : message)
| StDataframe (table : list result_row)
| StMetric (label value : string)
| StDownload (csv : string).

Inductive exn : Type :=
| RequestException (reason : string)
| Exception (reason : string).

Inductive result (A : Type) : Type :=
| Ok (a : A)
| Raise (e : exn).
Arguments Ok {A} a.
Arguments Raise {A} e.

(** A computation leaves a trace of events and returns or raises. *)
Definition M (A : Type) : Type := list event * result A.

Definition ret {A} (a : A) : M A := ([], Ok a).

Definition bind {A B} (m : M A) (k : A -> M B) : M B :=
  match m with
  | (t, Ok a) => let '(t', r) := k a in (t ++ t', r)
  | (t, Raise e) => (t, Raise e)
  end.

Definition emit (e : event) : M unit := ([e], Ok tt).

Definition raise {A} (e : exn) : M A := ([], Raise e).

(** [try: m except ...: handler]. *)
Definition try_except {A} (m : M A) (handler : exn -> M A) : M A :=
  match m with
  | (t, Ok a) => (t, Ok a)
  | (t, Raise e) => let '(t', r) := handler e in (t ++ t', r)
  end.

(** An operation of a library that raises where the model has [None]. *)
Definition orelse {A} (o : option A) (reason : string) : M A :=
  match o with
  | Some a => ret a
  | None => raise (Exception reason)
  end.

#[global] Instance M_ret : MRet M := @ret.
#[global] Instance M_bind : MBind M := fun A B k m => bind m k.

Fixpoint traverse {A B} (f : A -> M B) (l : list A) : M (list B) :=
  match l with
  | [] => ret []
  | a :: r => b ← f a; bs ← traverse f r; ret (b :: bs)
  end.

Definition trace {A} (m : M A) : list event := fst m.
Definition outcome {A} (m : M A) : result A := snd m.

End Effects.

(** ** The program *)

Module App.

Import Text Calendar Float Effects.

(** A row of the data frame after the conversions of lines 78 to 88: the
    index is an instant, the four price columns are numbers. *)
Record PriceRow : Type := {
  index : Z;
  Open : float;
  High : float;
  Low : float;
  Close : float;
  Volume : string
}.

Definition isalpha (s : string) : bool :=
  match chars s with
  | [] => false
  | l => forallb char_isalpha l
  end.

Definition upper (s : string) : string := of_chars (map char_upper (chars s)).

Fixpoint lstrip (l : list ascii) : list ascii :=
  match l with
  | c :: r => if char_isspace c then lstrip r else l
  | [] => []
  end.

Definition strip (s : string) : string :=
  of_chars (rev (lstrip (rev (lstrip (chars s))))).

Definition len (s : string) : Z := Z.of_nat (String.length s).

Definition validate_symbol (symbol : string) : bool :=
  if String.eqb symbol "" then false
  else isalpha symbol && ((1 <=? len symbol) && (len symbol <=? 5)).

Definition time_series_key : string := "Time Series (5min)".

Definition has_key (k : string) (data : gmap string json) : bool :=
  bool_decide (is_Some (data !! k)).

(** Lines 29 to 70. *)
Definition fetch_intraday_data
    (net : string -> http_response) (symbol : string) : M (option json) :=
  try_except
    (_ ← emit (Request symbol);
     match net symbol with
     | ConnectionFailed e | BadStatus e | NotJson e => raise (RequestException e)
     | JsonBody data =>
         match data !! "Error Message" with
         | Some v => _ ← emit (StError (ApiError v)); ret None
         | None =>
         if has_key "Note" data then
           _ ← emit (StError (Plain
                 "API call frequency limit reached. Please try again later."));
           ret None
         else if has_key "Information" data then
           _ ← emit (StError (Plain
                 "API rate limit exceeded. Please wait before making another request."));
           ret None
         else
           match data !! time_series_key with
           | None =>
               _ ← emit (StError (Plain
                     ("No intraday data found for symbol: " +:+ symbol
                      +:+ ". Please check if the symbol is valid.")));
               ret None
           | Some series => ret (Some series)
           end
         end
     end)
    (fun e =>
       match e with
       | RequestException r =>
           _ ← emit (StError (Plain ("Network error occurred: " +:+ r))); ret None
       | Exception r =>
           _ ← emit (StError (Plain ("An unexpected error occurred: " +:+ r)));
           ret None
       end).

(** Truth value of the fetched object ([if not data], [if raw_data]). *)
Definition truthy (data : json) : bool :=
  match data with
  | JText s => negb (String.eqb s "")
  | JSeries bars => match bars with [] => false | _ => true end
  end.

(** Lines 78 to 88: one typed row per bar; a key that is not a timestamp
    makes [pd.to_datetime] raise. *)
Definition typed_row (kv : string * RawBar) : M PriceRow :=
  let '(key, bar) := kv in
  t ← orelse (to_datetime key) "to_datetime";
  ret {| index := t;
         Open := to_numeric (raw_open bar);
         High := to_numeric (raw_high bar);
         Low := to_numeric (raw_low bar);
         Close := to_numeric (raw_close bar);
         Volume := raw_volume bar |}.

Definition data_frame (data : json) : M (list PriceRow) :=
  match data with
  | JSeries bars => traverse typed_row bars
  | JText _ => raise (Exception "from_dict")
  end.

Definition price_columns : list (PriceRow -> float) := [Open; High; Low; Close].

Definition intervals : list (string * (string * string)) :=
  [("Morning (9:00-9:35 AM)", ("09:00", "09:35"));
   ("Mid-Morning (11:00-11:30 AM)", ("11:00", "11:30"));
   ("Market Close (3:30-4:00 PM)", ("15:30", "16:00"))].

(** [timedelta(days=10)]. *)
Definition ten_days : Z := 10 * us_per_day.

(** Lines 91 to 94: the rows of the last ten days; [now] is the instant
    read by [datetime.now].  The subtraction keeps the clock's offset, so
    the window is 240 hours long. *)
Definition lookback (now : Z) (df : list PriceRow) : list PriceRow :=
  let end_date := now in
  let start_date := end_date - ten_days in
  List.filter (fun r => (start_date <=? index r) && (index r <=? end_date)) df.

(** Insertion of a date into an ascending list without duplicates. *)
Fixpoint insert_date (d : Z) (l : list Z) : list Z :=
  match l with
  | [] => [d]
  | e :: r => if d <? e then d :: l
              else if d =? e then l
              else e :: insert_date d r
  end.

Definition sorted_dates (l : list Z) : list Z := fold_right insert_date [] l.

(** Insertion into a list sorted by decreasing key; equal keys keep their
    order of arrival. *)
Fixpoint insert_desc {A} (x : Z * A) (l : list (Z * A)) : list (Z * A) :=
  match l with
  | [] => [x]
  | y :: r => if fst y <? fst x then x :: l else y :: insert_desc x r
  end.

(** [sort_values(..., ascending=False)] on a key column. *)
Definition sort_values_desc {A} (l : list (Z * A)) : list (Z * A) :=
  fold_right insert_desc [] l.

(** [df[price_columns].mean().mean()]: the mean of the column means. *)
Definition mean_of_means (rows : list PriceRow) : float :=
  nanmean (map (fun col => nanmean (map col rows)) price_columns).

(** Value of a column in a row; a row without the column reads [NaN]. *)
Fixpoint assoc (name : string) (l : list (string * cell)) : option cell :=
  match l with
  | [] => None
  | (k, v) :: r => if String.eqb k name then Some v else assoc name r
  end.

Definition row_get (r : result_row) (col : string) : cell :=
  if String.eqb col "Date" then CStr (Date r)
  else if String.eqb col "Day" then CStr (Day r)
  else default (CNum NaN) (assoc col (cells r)).

(** The columns of the frame built from the list of row dictionaries (every
    row the program builds has the keys of the first one). *)
Definition columns (df : list result_row) : list string :=
  match df with
  | [] => []
  | r :: _ => "Date" :: "Day" :: map fst (cells r)
  end.

Definition quote_char : ascii := chr 34.
Definition newline : ascii := chr 10.
Definition carriage_return : ascii := chr 13.

Definition needs_quoting (s : string) : bool :=
  existsb (fun c => Ascii.eqb c ","%char || Ascii.eqb c quote_char
                    || Ascii.eqb c newline || Ascii.eqb c carriage_return)
          (chars s).

(** A field as the CSV writer puts it, quoted only when it has to be. *)
Definition csv_field (s : string) : list ascii :=
  if needs_quoting s then
    quote_char ::
    flat_map (fun c => if Ascii.eqb c quote_char then [c; c] else [c]) (chars s)
    ++ [quote_char]
  else chars s.

(** The text of a value: [NaN] is written as the empty field. *)
Definition csv_cell (c : cell) : string :=
  match c with
  | CNum NaN => ""
  | CNum (Fin q) => float_repr q
  | CStr s => s
  end.

Fixpoint join_fields (l : list (list ascii)) : list ascii :=
  match l with
  | [] => []
  | [f] => f
  | f :: r => f ++ ","%char :: join_fields r
  end.

Definition csv_line (fields : list string) : list ascii :=
  join_fields (map csv_field fields) ++ [newline].

(** [df.to_csv(buffer, index=False)]: the header, then one line per row. *)
Definition to_csv (df : list result_row) : string :=
  let cols := columns df in
  of_chars (csv_line cols
            ++ flat_map (fun r => csv_line (map (fun c => csv_cell (row_get r c)) cols))
                        df).

(** Lines 143 to 147. *)
Definition export_to_csv (df : list result_row) (symbol : string) : string :=
  to_csv df.

(** Lines 199 to 202. *)
Definition format_price (val : cell) : cell :=
  match val with
  | CNum (Fin q) => CStr ("$" +:+ format_2f q)
  | CNum NaN => CStr "$nan"
  | CStr s => CStr s
  end.

Definition summary_columns : list string :=
  ["Morning (9:00-9:35 AM)"; "Mid-Morning (11:00-11:30 AM)";
   "Market Close (3:30-4:00 PM)"].

Definition is_summary_column (name : string) : bool :=
  existsb (String.eqb name) summary_columns.

(** Lines 196 to 208. *)
Definition display (df : list result_row) : list result_row :=
  map (fun r => {| Date := Date r; Day := Day r;
                   cells := map (fun kv => if is_summary_column (fst kv)
                                           then (fst kv, format_price (snd kv))
                                           else kv) (cells r) |}) df.

(** [pd.to_numeric(column, errors='coerce')] on a cell of the table. *)
Definition cell_to_numeric (c : cell) : float :=
  match c with
  | CNum x => x
  | CStr s => to_numeric s
  end.

(** Lines 228 to 247, for one column. *)
Definition summary_metric (label col : string) (df : list result_row) : event :=
  match nanmean (map (fun r => cell_to_numeric (row_get r col)) df) with
  | Fin avg => StMetric label ("$" +:+ format_2f avg)
  | NaN => StMetric label "No Data"
  end.

Section Zone.

(** The zone ['US/Eastern']: its offset from UTC, in microseconds, at an
    instant, as the time zone database gives it. *)
Variable utcoffset : Z -> Z.

(** [tz_convert]: the wall clock of the zone at an instant. *)
Definition wall_clock (t : Z) : Z := t + utcoffset t.

(** [df.index.date] and the time of day that [between_time] looks at. *)
Definition local_date (r : PriceRow) : Z := wall_clock (index r) / us_per_day.
Definition local_time (r : PriceRow) : Z := wall_clock (index r) mod us_per_day.

(** [DataFrame.between_time(start_time, end_time)], both ends included. *)
Definition between_time
    (df : list PriceRow) (start_time end_time : string) : M (list PriceRow) :=
  s ← orelse (to_time start_time) "between_time";
  e ← orelse (to_time end_time) "between_time";
  ret (List.filter (fun r => if s <=? e
                        then (s <=? local_time r) && (local_time r <=? e)
                        else (s <=? local_time r) || (local_time r <=? e)) df).

(** [df.groupby('Date')]: the dates in increasing order, each with its rows
    in their order of arrival. *)
Definition groupby_date (df : list PriceRow) : list (Z * list PriceRow) :=
  map (fun d => (d, List.filter (fun r => local_date r =? d) df))
      (sorted_dates (map local_date df)).

(** Lines 121 to 130, for one interval. *)
Definition interval_cell (day_data : list PriceRow)
    (interval : string * (string * string)) : M (string * cell) :=
  let '(interval_name, (start_time, end_time)) := interval in
  interval_data ← between_time day_data start_time end_time;
  match interval_data with
  | [] => ret (interval_name, CStr "No Data")
  | _ => let avg_price := mean_of_means interval_data in
         ret (interval_name, CNum (round2 avg_price))
  end.

(** Lines 114 to 132, for one group: [None] is the [continue] of a weekend. *)
Definition day_row (group : Z * list PriceRow) : M (option result_row) :=
  let '(date, day_data) := group in
  if 5 <=? weekday date then ret None
  else
    cs ← traverse (interval_cell day_data) intervals;
    ret (Some {| Date := strftime_ymd date; Day := day_name date; cells := cs |}).

(** Lines 135 to 139. *)
Definition sort_by_date (results : list result_row) : M (list result_row) :=
  match results with
  | [] => ret []
  | _ =>
      keyed ← traverse (fun r => k ← orelse (to_datetime_date (Date r)) "to_datetime";
                             ret (k, r)) results;
      ret (map (fun kr => {| Date := strftime_ymd (fst kr / us_per_day);
                             Day := Day (snd kr);
                             cells := cells (snd kr) |})
               (sort_values_desc keyed))
  end.

(** Lines 72 to 141. *)
Definition process_data_for_intervals
    (data : json) (symbol : string) (now : Z) : M (option (list result_row)) :=
  if negb (truthy data) then ret None
  else
    df ← data_frame data;
    let df := lookback now df in
    match df with
    | [] => _ ← emit (StWarning (Plain "No data available for the past 7 days."));
            ret None
    | _ =>
        rows ← traverse day_row (groupby_date df);
        let results := omap id rows in
        results_df ← sort_by_date results;
        ret (Some results_df)
    end.

(** Lines 149 to 264.  The static text of the page (titles, captions, the
    instructions, the label of the download button and its file name) is
    left out of the trace. *)
Definition main (net : string -> http_response) (now : Z)
    (symbol_input : string) (calculate_clicked : bool) : M unit :=
  let symbol := strip (upper symbol_input) in
  if calculate_clicked then
    if negb (validate_symbol symbol) then
      emit (StError (Plain
        "Please enter a valid stock/ETF symbol (1-5 letters, alphabetic characters only)"))
    else
      raw_data ← fetch_intraday_data net symbol;
      match raw_data with
      | Some data =>
          if truthy data then
            results_df ← process_data_for_intervals data symbol now;
            match results_df with
            | Some ((_ :: _) as df) =>
                _ ← emit (StSuccess (Plain
                      ("Successfully calculated interval averages for " +:+ symbol)));
                _ ← emit (StDataframe (display df));
                _ ← emit (summary_metric "7-Day Morning Average"
                            "Morning (9:00-9:35 AM)" df);
                _ ← emit (summary_metric "7-Day Mid-Morning Average"
                            "Mid-Morning (11:00-11:30 AM)" df);
                _ ← emit (summary_metric "7-Day Market Close Average"
                            "Market Close (3:30-4:00 PM)" df);
                emit (StDownload (export_to_csv df symbol))
            | _ =>
                emit (StWarning (Plain
                  "No trading data available for the specified symbol in the past 7 days."))
            end
          else ret tt
      | None => ret tt
      end
  else
    emit (StInfo (Plain
      "Enter a stock or ETF symbol in the sidebar and click 'Calculate Averages' to get started.")).

End Zone.

End App.

(** ** The zone US/Eastern *)

Module USEastern.

Import Calendar.

(** Day number of the [n]-th Sunday of month [m] of year [y]. *)
Definition nth_sunday (y m n : Z) : Z :=
  let first := days_from_civil y m 1 in
  first + (6 - weekday first) + 7 * (n - 1).

Definition hour : Z := 3600 * us_per_second.

(** The rule of the zone in force since 2007: daylight time (UTC-4) from
    the second Sunday of March, 07:00 UTC, to the first Sunday of November,
    06:00 UTC, and standard time (UTC-5) otherwise. *)
Definition utcoffset (t : Z) : Z :=
  let '(y, _, _) := civil_from_days (t / us_per_day) in
  let dst_start := nth_sunday y 3 2 * us_per_day + 7 * hour in
  let dst_end := nth_sunday y 11 1 * us_per_day + 6 * hour in
  if (dst_start <=? t) && (t <? dst_end) then - 4 * hour else - 5 * hour.

End USEastern.

(** ** Reading a CSV export back

    The specification speaks of an export that is parsed again.  The
    program has no reader; this one follows the CSV schema of the
    specification. *)

Module Reference.

Import Text Calendar Float Effects.

(** The pieces of a text between occurrences of a separator. *)
Fixpoint split_on (sep : ascii) (l : list ascii) : list (list ascii) :=
  match l with
  | [] => [[]]
  | c :: r =>
      if Ascii.eqb c sep then [] :: split_on sep r
      else match split_on sep r with
           | h :: t => (c :: h) :: t
           | [] => [[c]]
           end
  end.

(** The lines of a text in which every line ends with a newline. *)
Definition lines (l : list ascii) : option (list (list ascii)) :=
  match rev (split_on App.newline l) with
  | [] :: r => Some (rev r)
  | _ => None
  end.

(** A cell read back: the empty field is [NaN], a decimal is a number taken
    at two decimals, any other text is itself. *)
Definition read_cell (f : list ascii) : cell :=
  match f with
  | [] => CNum NaN
  | _ => match to_numeric (of_chars f) with
         | Fin q => CNum (round2 (Fin q))
         | NaN => CStr (of_chars f)
         end
  end.

Definition read_row (names : list string) (l : list ascii) : option result_row :=
  match split_on ","%char l with
  | date :: day :: values =>
      if (length values =? length names)%nat then
        Some {| Date := of_chars date; Day := of_chars day;
                cells := zip names (map read_cell values) |}
      else None
  | _ => None
  end.

(** Re-parsing of an export: the header must start with the columns [Date]
    and [Day]; the remaining header fields name the cells of every row. *)
Definition read_csv (text : string) : option (list result_row) :=
  ls ← lines (chars text);
  match ls with
  | [] => None
  | header :: rows =>
      match map of_chars (split_on ","%char header) with
      | c1 :: c2 :: names =>
          if String.eqb c1 "Date" && String.eqb c2 "Day"
          then mapM (read_row names) rows
          else None
      | _ => None
      end
  end.

End Reference.

(** ** What the specification speaks of *)

Module Spec.

Import Calendar Float Effects App.

(** The three windows as clock times, in microseconds since midnight. *)
Definition interval_bounds : list (string * (Z * Z)) :=
  [("Morning (9:00-9:35 AM)", (32400000000, 34500000000));
   ("Mid-Morning (11:00-11:30 AM)", (39600000000, 41400000000));
   ("Market Close (3:30-4:00 PM)", (55800000000, 57600000000))].







(** The cell of a window, from the rows that fall into it. *)
Definition cell_of (rows : list PriceRow) : cell :=
  match rows with
  | [] => CStr "No Data"
  | _ => CNum (round2 (mean_of_means rows))
  end.

(** A clock that [pd.to_datetime] can take the dates of the last ten days
    from. *)
Definition clock_ok (now : Z) : Prop :=
  timestamp_min + 12 * us_per_day <= now <= timestamp_max - us_per_day.

Section Zone.

Variable utcoffset : Z -> Z.

(** An offset from UTC is less than a day. *)
Definition zone_ok : Prop := forall t, - us_per_day <= utcoffset t <= us_per_day.

(** The rows of a date whose clock time lies in a window, ends included. *)
Definition matching (df : list PriceRow) (d s e : Z) : list PriceRow :=
  List.filter (fun r => (s <=? local_time utcoffset r) && (local_time utcoffset r <=? e))
              (List.filter (fun r => local_date utcoffset r =? d) df).

(** The row of the table for a date. *)
Definition summary (df : list PriceRow) (d : Z) : result_row :=
  {| Date := strftime_ymd d;
     Day := day_name d;
     cells := map (fun iv => (fst iv, cell_of (matching df d (fst (snd iv)) (snd (snd iv)))))
                  interval_bounds |}.

(** The dates of the frame outside weekends, in increasing order. *)
Definition trading_dates (df : list PriceRow) : list Z :=
  List.filter (fun d => weekday d <? 5) (sorted_dates (map (local_date utcoffset) df)).

(** The table for a frame: a row per trading date, latest first. *)
Definition table_of (df : list PriceRow) : list result_row :=
  rev (map (summary df) (trading_dates df)).

(** The dates with a row in the frame that are not in a weekend. *)
Definition trading_day (df : list PriceRow) (d : Z) : Prop :=
  weekday d < 5 /\ exists r, In r df /\ local_date utcoffset r = d.

End Zone.

(** The order of a table sorted by decreasing key. *)
Definition key_ge {A} (a b : Z * A) : Prop := fst a >= fst b.

(** A cell text of an export: a number with at most two decimals. *)
Definition two_decimal_text (s : string) : Prop :=
  exists k : Z, s = Text.of_chars (cents_repr k).

Definition csv_header : string :=
  "Date,Day,Morning (9:00-9:35 AM),Mid-Morning (11:00-11:30 AM),Market Close (3:30-4:00 PM)".

(** A character that the CSV writer never quotes. *)
Definition plain (c : ascii) : bool :=
  negb (Ascii.eqb c ","%char || Ascii.eqb c quote_char
        || Ascii.eqb c newline || Ascii.eqb c carriage_return).

(** The cells that the aggregation builds: [NaN], a number of hundredths,
    or the text [No Data]. *)
Inductive table_cell : cell -> Prop :=
| cell_nan : table_cell (CNum NaN)
| cell_hundredths (k : Z) : table_cell (CNum (Fin (k # 100)))
| cell_no_data : table_cell (CStr "No Data").

(** The rows that the aggregation builds. *)
Definition table_row (r : result_row) : Prop :=
  (exists d, -200000 <= d <= 200000 /\ Date r = strftime_ymd d /\ Day r = day_name d)
  /\ exists c1 c2 c3,
       cells r = [("Morning (9:00-9:35 AM)", c1);
                  ("Mid-Morning (11:00-11:30 AM)", c2);
                  ("Market Close (3:30-4:00 PM)", c3)]
       /\ table_cell c1 /\ table_cell c2 /\ table_cell c3.

(** The line of a row of the aggregation in an export. *)
Definition row_line (r : result_row) (line : list ascii) : Prop :=
  exists d c1 c2 c3,
    Date r = strftime_ymd d /\ Day r = day_name d
    /\ cells r = [("Morning (9:00-9:35 AM)", c1);
                  ("Mid-Morning (11:00-11:30 AM)", c2);
                  ("Market Close (3:30-4:00 PM)", c3)]
    /\ table_cell c1 /\ table_cell c2 /\ table_cell c3
    /\ line = Text.chars (Date r) ++ ","%char :: Text.chars (Day r) ++ ","%char ::
              Text.chars (csv_cell c1) ++ ","%char :: Text.chars (csv_cell c2)
              ++ ","%char :: Text.chars (csv_cell c3).

(** The text of a cell as the specification has it: a number with at most
    two decimals or the text [No Data]. *)
Definition number_or_no_data (s : string) : Prop :=
  two_decimal_text s \/ s = "No Data".

(** The line of a row as the specification has it: the date, the name of
    its day and three cells, separated by commas. *)
Definition export_line (r : result_row) (line : list ascii) : Prop :=
  exists d t1 t2 t3,
    Date r = strftime_ymd d /\ Day r = day_name d
    /\ number_or_no_data t1 /\ number_or_no_data t2 /\ number_or_no_data t3
    /\ line = Text.chars (strftime_ymd d) ++ ","%char :: Text.chars (day_name d)
              ++ ","%char :: Text.chars t1 ++ ","%char :: Text.chars t2
              ++ ","%char :: Text.chars t3.

(** No cell of the table is [NaN]: every window with a row has a price
    that parsed. *)
Definition no_nan (table : list result_row) : Prop :=
  Forall (fun r => Forall (fun kv => snd kv <> CNum NaN) (cells r)) table.

End Spec.

(** ** Sample inputs *)

Module Examples.

Import Effects.

Definition bar (o h l c : string) : RawBar :=
  {| raw_open := o; raw_high := h; raw_low := l; raw_close := c; raw_volume := "100" |}.

(** 2024-01-03T20:00:00Z, a Wednesday afternoon in New York. *)
Definition now : Z := 1704312000000000.

(** One bar at 09:10 Eastern on Tuesday 2024-01-02. *)
Definition one_bar : json :=
  JSeries [("2024-01-02 14:10:00", bar "10" "12" "9" "11")].

(** One bar at 2024-01-02T14:00:00Z. *)
Definition bar_at_14_utc : json :=
  JSeries [("2024-01-02 14:00:00", bar "10" "12" "9" "11")].

(** One bar at 2024-01-03T01:00:00Z, still the evening of the 2nd in New York. *)
Definition bar_after_midnight_utc : json :=
  JSeries [("2024-01-03 01:00:00", bar "10" "12" "9" "11")].



(** A mid-morning bar none of whose prices is a number. *)
Definition nothing_parsed : json :=
  JSeries [("2024-01-03 16:00:00", bar "N/A" "N/A" "N/A" "N/A")].

(** Bars of three days, out of order, one of them a Saturday. *)
Definition three_days : json :=
  JSeries [("2023-12-29 21:00:00", bar "1" "2" "3" "4");
           ("2024-01-02 14:10:00", bar "10" "12" "9" "11");
           ("2023-12-30 16:00:00", bar "7" "7" "7" "7");
           ("2024-01-03 16:00:00", bar "20" "21" "19" "20.5")].

(** One bar at 11:00 Eastern on Saturday 2023-12-30. *)
Definition saturday_only : json :=
  JSeries [("2023-12-30 16:00:00", bar "7" "7" "7" "7")].

(** A bar older than the window. *)
Definition old_bar : json :=
  JSeries [("2023-11-01 14:10:00", bar "10" "12" "9" "11")].

Definition envelope (series : json) : gmap string json :=
  {[ "Meta Data" := JText "Intraday (5min)"; "Time Series (5min)" := series ]}.

Definition provider (series : json) (symbol : string) : http_response :=
  JsonBody (envelope series).

(** An envelope with the provider's error field, and one that throttles. *)
Definition error_body : gmap string json :=
  {[ "Error Message" := JText "Invalid API call."; "Note" := JText "Thank you." ]}.

Definition failing_provider (symbol : string) : http_response := JsonBody error_body.

End Examples.

(** ** Notions and sample inputs for the further properties *)

Module Further.

Import Text Calendar Float Effects App.



(** The date of a row, read from its text. *)
Definition row_date (r : result_row) : option Z := parse_ymd (Date r).

(** The same bar with another volume. *)
Definition with_volume (v : string) (b : RawBar) : RawBar :=
  {| raw_open := raw_open b; raw_high := raw_high b; raw_low := raw_low b;
     raw_close := raw_close b; raw_volume := v |}.

(** A provider that cannot be reached. *)
Definition unreachable (symbol : string) : http_response :=
  ConnectionFailed "timed out".

(** A series whose second key is not a timestamp. *)
Definition bad_key : json :=
  JSeries [("2024-01-02 14:10:00", Examples.bar "10" "12" "9" "11");
           ("yesterday", Examples.bar "10" "12" "9" "11")].


(** A row with its key, when the key is the midnight of the row's date. *)
Definition keyed_by_date (kr : Z * result_row) : Prop :=
  exists d, -200000 <= d <= 200000 /\ fst kr = d * us_per_day
            /\ Date (snd kr) = strftime_ymd d.

(** A table of two rows with every kind of cell. *)
Definition two_rows : list result_row :=
  [{| Date := "2024-01-03"; Day := "Wednesday";
      cells := [("Morning (9:00-9:35 AM)", CNum (Fin (1050 # 100)));
                ("Mid-Morning (11:00-11:30 AM)", CStr "No Data");
                ("Market Close (3:30-4:00 PM)", CNum NaN)] |};
   {| Date := "2024-01-02"; Day := "Tuesday";
      cells := [("Morning (9:00-9:35 AM)", CStr "No Data");
                ("Mid-Morning (11:00-11:30 AM)", CStr "No Data");
                ("Market Close (3:30-4:00 PM)", CNum (Fin (2012 # 100)))] |}].

(** How the page shows a cell: a text stays, a missing number reads [$nan],
    and a number is a dollar sign before a text that reads back as the
    number. *)
Definition shown_as (kv kv' : string * cell) : Prop :=
  fst kv' = fst kv
  /\ match snd kv with
     | CStr s => snd kv' = CStr s
     | CNum NaN => snd kv' = CStr "$nan"
     | CNum (Fin q) =>
         exists t, snd kv' = CStr ("$" +:+ t) /\ float_eq (to_numeric t) (Fin q)
     end.

(** The typed row of a bar, when its key is a timestamp. *)
Definition typed (kv : string * RawBar) : option PriceRow :=
  t ← to_datetime (fst kv);
  Some {| index := t;
          Open := to_numeric (raw_open (snd kv));
          High := to_numeric (raw_high (snd kv));
          Low := to_numeric (raw_low (snd kv));
          Close := to_numeric (raw_close (snd kv));
          Volume := raw_volume (snd kv) |}.

(** The same typed row with another volume. *)
Definition set_volume (v : string) (r : PriceRow) : PriceRow :=
  {| index := index r; Open := Open r; High := High r; Low := Low r;
     Close := Close r; Volume := v |}.

End Further.

(** * Facts about text *)

Module TextFacts.

Import Text.

Lemma chars_of_chars (l : list ascii) : chars (of_chars l) = l.
Proof. induction l as [|c l IH]; simpl; [reflexivity | now rewrite IH]. Qed.

Lemma of_chars_chars (s : string) : of_chars (chars s) = s.
Proof. induction s as [|c s IH]; simpl; [reflexivity | now rewrite IH]. Qed.

Lemma of_chars_inj (a b : list ascii) : of_chars a = of_chars b -> a = b.
Proof. intros H. rewrite <- (chars_of_chars a), H. apply chars_of_chars. Qed.

Lemma digit_cases (d : Z) : 0 <= d <= 9 ->
  d = 0 \/ d = 1 \/ d = 2 \/ d = 3 \/ d = 4 \/ d = 5 \/ d = 6 \/ d = 7 \/ d = 8 \/ d = 9.
Proof. lia. Qed.

Lemma digit_val_chr (d : Z) : 0 <= d <= 9 -> digit_val (digit_chr d) = Some d.
Proof.
  intros H. destruct (digit_cases d H) as [E|[E|[E|[E|[E|[E|[E|[E|[E|E]]]]]]]]];
    subst d; reflexivity.
Qed.

Lemma is_digit_chr (d : Z) : 0 <= d <= 9 -> is_digit (digit_chr d) = true.
Proof.
  intros H. destruct (digit_cases d H) as [E|[E|[E|[E|[E|[E|[E|[E|[E|E]]]]]]]]];
    subst d; reflexivity.
Qed.

Lemma digit_val_bound (c : ascii) (d : Z) : digit_val c = Some d -> 0 <= d <= 9.
Proof.
  unfold digit_val, is_digit. destruct (48 <=? code c) eqn:E1; [|discriminate].
  destruct (code c <=? 57) eqn:E2; [|discriminate]. simpl.
  intros [= <-]. lia.
Qed.

Lemma num2_pad2 (n : Z) : 0 <= n <= 99 ->
  num2 (digit_chr (n / 10)) (digit_chr (n mod 10)) = Some n.
Proof.
  intros H. unfold num2.
  rewrite !digit_val_chr by (Z.div_mod_to_equations; lia). simpl.
  f_equal. Z.div_mod_to_equations; lia.
Qed.

Lemma num4_pad4 (n : Z) : 0 <= n <= 9999 ->
  num4 (digit_chr (n / 1000)) (digit_chr (n / 100 mod 10))
       (digit_chr (n / 10 mod 10)) (digit_chr (n mod 10)) = Some n.
Proof.
  intros H. unfold num4, num2.
  rewrite !digit_val_chr by (Z.div_mod_to_equations; lia). simpl.
  f_equal. Z.div_mod_to_equations; lia.
Qed.

End TextFacts.

(** * Facts about the calendar *)

Module CalendarFacts.

Import Text Calendar TextFacts.

Lemma year_of_era (doe : Z) : 0 <= doe <= 146096 ->
  let yoe := (doe - doe / 1460 + doe / 36524 - doe / 146096) / 365 in
  0 <= yoe <= 399 /\
  0 <= doe - (365 * yoe + yoe / 4 - yoe / 100) /\
  doe - (365 * yoe + yoe / 4 - yoe / 100) <
    365 + ((yoe + 1) / 4 - yoe / 4) - ((yoe + 1) / 100 - yoe / 100)
        + ((yoe + 1) / 400 - yoe / 400).
Proof.
  intros H. cbv zeta.
  assert (doe / 36524 = 0 \/ doe / 36524 = 1 \/ doe / 36524 = 2
          \/ doe / 36524 = 3 \/ doe / 36524 = 4) as Hc
    by (Z.div_mod_to_equations; lia).
  destruct Hc as [Hc|[Hc|[Hc|[Hc|Hc]]]]; rewrite Hc; (Z.div_mod_to_equations; lia).
Qed.

Lemma month_of_year (doy : Z) : 0 <= doy <= 365 ->
  let mp := (5 * doy + 2) / 153 in
  0 <= mp <= 11 /\
  1 <= doy - (153 * mp + 2) / 5 + 1 /\
  doy - (153 * mp + 2) / 5 + 1 <= (153 * (mp + 1) + 2) / 5 - (153 * mp + 2) / 5.
Proof. intros H. cbv zeta. Z.div_mod_to_equations; lia. Qed.

(** The civil date of a day number is a date of the calendar, and it is the
    date of that day number. *)
Lemma civil_from_days_spec (z y m d : Z) :
  civil_from_days z = (y, m, d) ->
  1 <= m <= 12 /\ 1 <= d <= days_in_month y m /\ days_from_civil y m d = z
  /\ (z + 719468) / 146097 * 400 <= y <= (z + 719468) / 146097 * 400 + 400.
Proof.
  unfold civil_from_days.
  set (z' := z + 719468). set (era := z' / 146097). set (doe := z' - era * 146097).
  assert (Hdoe : 0 <= doe <= 146096) by (subst doe era; Z.div_mod_to_equations; lia).
  assert (Hz : z = era * 146097 + doe - 719468) by (subst doe z'; lia).
  pose proof (year_of_era doe Hdoe) as Hy. cbv zeta in Hy.
  set (yoe := (doe - doe / 1460 + doe / 36524 - doe / 146096) / 365) in *.
  set (doy := doe - (365 * yoe + yoe / 4 - yoe / 100)) in *.
  destruct Hy as (Hy0 & Hd0 & Hd1).
  assert (Hdoy : 0 <= doy <= 365) by (Z.div_mod_to_equations; lia).
  pose proof (month_of_year doy Hdoy) as Hm. cbv zeta in Hm.
  set (mp := (5 * doy + 2) / 153) in *.
  destruct Hm as (Hm0 & Hd2 & Hd3).
  assert (Hdoe' : doe = doy + (365 * yoe + yoe / 4 - yoe / 100)) by (subst doy; lia).
  clearbody mp doy yoe doe era z'.
  assert (Hcases : mp = 0 \/ mp = 1 \/ mp = 2 \/ mp = 3 \/ mp = 4 \/ mp = 5 \/ mp = 6
                   \/ mp = 7 \/ mp = 8 \/ mp = 9 \/ mp = 10 \/ mp = 11) by lia.
  intros E.
  destruct Hcases as [Hc|[Hc|[Hc|[Hc|[Hc|[Hc|[Hc|[Hc|[Hc|[Hc|[Hc|Hc]]]]]]]]]]];
    subst mp; simpl in E, Hd2, Hd3; injection E as <- <- <-;
    unfold days_from_civil, days_in_month, is_leap; simpl;
    repeat match goal with
           | |- context [Z.eqb ?a ?b] => destruct (Z.eqb_spec a b)
           end; cbn [andb orb negb];
    rewrite Hz; (Z.div_mod_to_equations; lia).
Qed.

Lemma valid_date_civil (z y m d : Z) :
  civil_from_days z = (y, m, d) -> valid_date y m d = true.
Proof.
  intros E. destruct (civil_from_days_spec _ _ _ _ E) as (Hm & Hd & _).
  unfold valid_date. repeat (apply andb_true_intro; split); apply Z.leb_le; lia.
Qed.

(** Dates whose year has four digits are read back from their text. *)
Lemma parse_strftime (z : Z) :
  -200000 <= z <= 200000 -> parse_ymd (strftime_ymd z) = Some z.
Proof.
  intros Hz. unfold strftime_ymd, parse_ymd.
  destruct (civil_from_days z) as [[y m] d] eqn:E.
  pose proof (valid_date_civil _ _ _ _ E) as Hv.
  destruct (civil_from_days_spec _ _ _ _ E) as (Hm & Hd & Hr & Hy).
  assert (0 <= y <= 9999) by (Z.div_mod_to_equations; lia).
  assert (d <= 31).
  { unfold days_in_month in Hd.
    destruct (m =? 2); [destruct (is_leap y)|destruct (_ || _)]; lia. }
  rewrite chars_of_chars. unfold pad4, pad2. cbn [app].
  rewrite num4_pad4 by lia. cbn [mbind option_bind].
  rewrite !num2_pad2 by lia. cbn [mbind option_bind].
  rewrite Hv, Hr. reflexivity.
Qed.

Lemma strftime_inj (a b : Z) :
  -200000 <= a <= 200000 -> -200000 <= b <= 200000 ->
  strftime_ymd a = strftime_ymd b -> a = b.
Proof.
  intros Ha Hb E. apply parse_strftime in Ha, Hb. congruence.
Qed.

Lemma weekday_range (z : Z) : 0 <= weekday z <= 6.
Proof. unfold weekday. Z.div_mod_to_equations; lia. Qed.

End CalendarFacts.

(** * Facts about computations *)

Module EffectsFacts.

Import Effects.

Lemma bind_ret {A B} (a : A) (k : A -> M B) : bind (ret a) k = k a.
Proof. unfold bind, ret. destruct (k a). reflexivity. Qed.

Lemma bind_raise {A B} (e : exn) (k : A -> M B) : bind (raise e) k = raise e.
Proof. reflexivity. Qed.

(** Unfolding of the notation of sequencing, and its two laws. *)
Ltac run :=
  unfold mbind, M_bind;
  repeat match goal with
         | |- context [bind ([], Ok ?a) ?k] =>
             change (bind ([], Ok a) k) with (bind (ret a) k)
         end;
  rewrite ?bind_ret, ?bind_raise.

(** A loop whose body neither raises nor writes is a [map]. *)
Lemma traverse_ret {A B} (f : A -> M B) (g : A -> B) (l : list A) :
  (forall a, In a l -> f a = ret (g a)) -> traverse f l = ret (map g l).
Proof.
  induction l as [|a l IH]; intros H; simpl; [reflexivity|].
  rewrite (H a) by (left; reflexivity). run.
  rewrite IH by (intros b Hb; apply H; right; exact Hb).
  run. reflexivity.
Qed.

(** A loop over a partial operation of a library returns what the
    operation gives on every element, or raises. *)
Lemma traverse_orelse {A B C} (g : A -> option C) (h : C -> A -> B)
    (reason : string) (l : list A) :
  let f := fun a => c ← orelse (g a) reason; ret (h c a) in
  (exists cs, mapM g l = Some cs /\ traverse f l = ret (zip_with h cs l))
  \/ (mapM g l = None /\ traverse f l = raise (Exception reason)).
Proof.
  cbv zeta. induction l as [|a l IH]; simpl.
  - left. exists []. split; reflexivity.
  - destruct (g a) as [c|] eqn:E; simpl.
    + destruct IH as [(cs & Hm & Ht)|(Hm & Ht)]; rewrite Ht, Hm; simpl; run.
      * left. exists (c :: cs). split; reflexivity.
      * right. split; reflexivity.
    + right. split; reflexivity.
Qed.

End EffectsFacts.

(** * Facts about grouping and sorting *)

Module SortFacts.

Import App Spec.

Lemma insert_date_In (d x : Z) (l : list Z) :
  In x (insert_date d l) <-> x = d \/ In x l.
Proof.
  induction l as [|e l IH]; simpl.
  - intuition.
  - destruct (Z.ltb_spec d e); [simpl; intuition|].
    destruct (Z.eqb_spec d e); simpl; [subst; intuition | rewrite IH; intuition].
Qed.

Lemma insert_date_sorted (d : Z) (l : list Z) :
  StronglySorted Z.lt l -> StronglySorted Z.lt (insert_date d l).
Proof.
  induction 1 as [|e l Hs IH Hall]; simpl.
  - repeat constructor.
  - destruct (Z.ltb_spec d e).
    + constructor; [constructor; assumption|].
      constructor; [assumption|].
      eapply List.Forall_impl; [|exact Hall]. simpl. intros; lia.
    + destruct (Z.eqb_spec d e); [constructor; assumption|].
      constructor; [exact IH|].
      apply List.Forall_forall. intros x Hx. apply insert_date_In in Hx.
      destruct Hx as [->|Hx]; [lia|].
      rewrite List.Forall_forall in Hall. apply Hall, Hx.
Qed.

Lemma sorted_dates_In (x : Z) (l : list Z) : In x (sorted_dates l) <-> In x l.
Proof.
  induction l as [|d l IH]; simpl; [reflexivity|].
  rewrite insert_date_In, IH. intuition.
Qed.

Lemma sorted_dates_sorted (l : list Z) : StronglySorted Z.lt (sorted_dates l).
Proof.
  induction l as [|d l IH]; simpl; [constructor | apply insert_date_sorted, IH].
Qed.

Lemma filter_sorted (f : Z -> bool) (l : list Z) :
  StronglySorted Z.lt l -> StronglySorted Z.lt (List.filter f l).
Proof.
  induction 1 as [|e l Hs IH Hall]; simpl; [constructor|].
  destruct (f e); [|exact IH].
  constructor; [exact IH|].
  rewrite List.Forall_forall in *. intros x Hx. apply filter_In in Hx. apply Hall, Hx.
Qed.

Lemma rev_sorted_gt (l : list Z) :
  StronglySorted Z.lt l -> StronglySorted Z.gt (rev l).
Proof.
  induction 1 as [|e l Hs IH Hall]; simpl; [constructor|].
  assert (G : forall a b : list Z,
             StronglySorted Z.gt a -> StronglySorted Z.gt b ->
             (forall x y, In x a -> In y b -> x > y) ->
             StronglySorted Z.gt (a ++ b)).
  { induction a as [|x a IHa]; intros b Ha Hb Hab; simpl; [exact Hb|].
    inversion Ha as [|? ? Ha' Hx]; subst.
    constructor.
    - apply IHa; [exact Ha'|exact Hb|]. intros; apply Hab; [right|]; assumption.
    - apply Forall_app. split; [exact Hx|].
      apply List.Forall_forall. intros y Hy. apply Hab; [left; reflexivity|exact Hy]. }
  apply G; [exact IH|repeat constructor|].
  intros x y Hx [<-|[]]. apply in_rev in Hx.
  rewrite List.Forall_forall in Hall. specialize (Hall x Hx). lia.
Qed.

(** Insertion and sorting by decreasing key, for arbitrary keys. *)
Lemma insert_desc_Permutation {A} (x : Z * A) (l : list (Z * A)) :
  Permutation (insert_desc x l) (x :: l).
Proof.
  induction l as [|y l IH]; simpl; [reflexivity|].
  destruct (fst y <? fst x); [reflexivity|].
  rewrite IH. apply perm_swap.
Qed.

Lemma sort_values_desc_Permutation {A} (l : list (Z * A)) :
  Permutation (sort_values_desc l) l.
Proof.
  induction l as [|x l IH]; simpl; [reflexivity|].
  rewrite insert_desc_Permutation. constructor. exact IH.
Qed.

Lemma insert_desc_sorted {A} (x : Z * A) (l : list (Z * A)) :
  StronglySorted key_ge l -> StronglySorted key_ge (insert_desc x l).
Proof.
  induction 1 as [|y l Hs IH Hall]; simpl.
  - repeat constructor.
  - destruct (Z.ltb_spec (fst y) (fst x)).
    + constructor; [constructor; assumption|].
      constructor; [unfold key_ge; lia|].
      eapply List.Forall_impl; [|exact Hall]. unfold key_ge. intros; lia.
    + constructor; [exact IH|].
      apply List.Forall_forall. intros z Hz.
      apply (Permutation_in _ (insert_desc_Permutation x l)) in Hz.
      destruct Hz as [<-|Hz]; [unfold key_ge; lia|].
      rewrite List.Forall_forall in Hall. apply Hall, Hz.
Qed.

Lemma sort_values_desc_sorted {A} (l : list (Z * A)) :
  StronglySorted key_ge (sort_values_desc l).
Proof.
  induction l as [|x l IH]; simpl; [constructor | apply insert_desc_sorted, IH].
Qed.

(** On keys that come in increasing order the sort is a reversal. *)
Lemma insert_desc_below {A} (x : Z * A) (l : list (Z * A)) :
  Forall (fun y => fst x < fst y) l -> insert_desc x l = l ++ [x].
Proof.
  induction 1 as [|y l Hy Hall IH]; simpl; [reflexivity|].
  destruct (Z.ltb_spec (fst y) (fst x)); [lia|]. now rewrite IH.
Qed.

Lemma sort_values_desc_increasing {A} (l : list (Z * A)) :
  StronglySorted Z.lt (map fst l) -> sort_values_desc l = rev l.
Proof.
  induction l as [|x l IH]; simpl; intros H; [reflexivity|].
  inversion H as [|? ? Hs Hall]; subst.
  rewrite (IH Hs). apply insert_desc_below.
  apply List.Forall_forall. intros y Hy. apply in_rev in Hy.
  rewrite List.Forall_forall in Hall. apply Hall. apply in_map, Hy.
Qed.

End SortFacts.


(** * Facts about means and rounding *)

Module FloatFacts.

Import Float App Spec.
Local Open Scope Q_scope.

Lemma rint_comp (a b : Q) : a == b -> rint a = rint b.
Proof.
  intros E. unfold rint.
  rewrite (Qfloor_comp _ _ E).
  assert (E' : a - inject_Z (Qfloor b) == b - inject_Z (Qfloor b)) by now rewrite E.
  rewrite (Qcompare_comp _ _ E' (1 # 2) (1 # 2) (Qeq_refl _)). reflexivity.
Qed.


Lemma float_eq_refl (x : float) : float_eq x x.
Proof. destruct x; simpl; [exact I | reflexivity]. Qed.

















End FloatFacts.
(** * Facts about the aggregation *)

Module ProcessFacts.

Import Text Calendar Float Effects App Spec.
Import TextFacts CalendarFacts EffectsFacts SortFacts.

Lemma match_nonempty {A B} (l : list A) (a b : B) :
  l <> [] -> match l with [] => a | _ :: _ => b end = b.
Proof. destruct l; [congruence | reflexivity]. Qed.

Lemma traverse_ext {A B} (f g : A -> M B) (l : list A) :
  (forall a, f a = g a) -> traverse f l = traverse g l.
Proof.
  intros H. induction l as [|a l IH]; simpl; [reflexivity|].
  now rewrite H, IH.
Qed.

Lemma to_datetime_bounds (s : string) (t : Z) :
  to_datetime s = Some t -> in_bounds t = true.
Proof.
  unfold to_datetime. destruct (parse_timestamp s) as [u|]; simpl; [|discriminate].
  destruct (in_bounds u) eqn:E; [|discriminate]. now intros [= <-].
Qed.

Lemma mapM_Forall {A C} (g : A -> option C) (P : C -> Prop) (l : list A) (cs : list C) :
  (forall a c, g a = Some c -> P c) -> mapM g l = Some cs -> Forall P cs.
Proof.
  intros H. revert cs. induction l as [|a l IH]; simpl; intros cs.
  - intros [= <-]. constructor.
  - destruct (g a) as [c|] eqn:E; simpl; [|discriminate].
    destruct (mapM g l) as [cs'|]; simpl; [|discriminate].
    intros [= <-]. constructor; [eapply H, E | apply IH; reflexivity].
Qed.

(** Building the frame writes nothing, and every instant of the index is
    within the bounds of a [Timestamp]. *)
Lemma data_frame_spec (data : json) (t : list event) (r : result (list PriceRow)) :
  data_frame data = (t, r) ->
  t = [] /\ forall df, r = Ok df -> Forall (fun x => in_bounds (index x) = true) df.
Proof.
  destruct data as [s|bars]; simpl.
  - intros [= <- <-]. split; [reflexivity | discriminate].
  - set (g := fun kv : string * RawBar => to_datetime (fst kv)).
    set (h := fun (t : Z) (kv : string * RawBar) =>
                {| index := t;
                   Open := to_numeric (raw_open (snd kv));
                   High := to_numeric (raw_high (snd kv));
                   Low := to_numeric (raw_low (snd kv));
                   Close := to_numeric (raw_close (snd kv));
                   Volume := raw_volume (snd kv) |}).
    rewrite (traverse_ext typed_row
               (fun a => c ← orelse (g a) "to_datetime"; ret (h c a)))
      by (intros [k b]; reflexivity).
    destruct (traverse_orelse g h "to_datetime" bars) as [(cs & Hm & Ht)|(Hm & Ht)];
      rewrite Ht; intros [= <- <-]; (split; [reflexivity|]); [|discriminate].
    intros df [= <-].
    assert (Hcs : Forall (fun c => in_bounds c = true) cs).
    { eapply mapM_Forall; [|exact Hm]. intros [k b] c. apply to_datetime_bounds. }
    clear Hm Ht. revert bars.
    induction Hcs as [|c cs Hc Hcs IH]; intros [|kv bars]; simpl; constructor; auto.
Qed.

Section Zone.

Variable utcoffset : Z -> Z.
Hypothesis zone : zone_ok utcoffset.

Lemma local_date_range (r : PriceRow) :
  in_bounds (index r) = true -> -200000 <= local_date utcoffset r <= 200000.
Proof.
  unfold in_bounds, local_date, wall_clock, timestamp_min, timestamp_max.
  pose proof (zone (index r)) as Hz. unfold us_per_day, us_per_second in *.
  intros H. apply andb_true_iff in H. destruct H as [H1 H2].
  apply Z.leb_le in H1, H2. Z.div_mod_to_equations; lia.
Qed.

Lemma between_time_window (df : list PriceRow) (st en : string) (s e : Z) :
  to_time st = Some s -> to_time en = Some e -> s <= e ->
  between_time utcoffset df st en =
  ret (List.filter (fun r => (s <=? local_time utcoffset r)
                             && (local_time utcoffset r <=? e)) df).
Proof.
  intros Hs He Hle. unfold between_time. rewrite Hs, He. simpl. run.
  unfold ret. do 2 f_equal. apply List.filter_ext. intros r.
  destruct (Z.leb_spec s e); [reflexivity | lia].
Qed.

Lemma interval_cell_window (day_data : list PriceRow) (name st en : string) (s e : Z) :
  to_time st = Some s -> to_time en = Some e -> s <= e ->
  interval_cell utcoffset day_data (name, (st, en)) =
  ret (name, cell_of (List.filter (fun r => (s <=? local_time utcoffset r)
                                            && (local_time utcoffset r <=? e)) day_data)).
Proof.
  intros Hs He Hle. unfold interval_cell.
  rewrite (between_time_window _ _ _ _ _ Hs He Hle). run.
  destruct (List.filter _ day_data); reflexivity.
Qed.

(** The three cells of a day: the loop of lines 121 to 130 never raises. *)
Lemma interval_cells (day_data : list PriceRow) :
  traverse (interval_cell utcoffset day_data) intervals =
  ret (map (fun iv => (fst iv,
              cell_of (List.filter
                         (fun r => (fst (snd iv) <=? local_time utcoffset r)
                                   && (local_time utcoffset r <=? snd (snd iv)))
                         day_data)))
           interval_bounds).
Proof.
  unfold intervals, interval_bounds. cbn [traverse map fst snd].
  rewrite (interval_cell_window _ _ "09:00" "09:35" 32400000000 34500000000)
    by (reflexivity || lia).
  rewrite (interval_cell_window _ _ "11:00" "11:30" 39600000000 41400000000)
    by (reflexivity || lia).
  rewrite (interval_cell_window _ _ "15:30" "16:00" 55800000000 57600000000)
    by (reflexivity || lia).
  run. reflexivity.
Qed.

Lemma day_row_summary (df : list PriceRow) (d : Z) :
  day_row utcoffset (d, List.filter (fun r => local_date utcoffset r =? d) df) =
  ret (if weekday d <? 5 then Some (summary utcoffset df d) else None).
Proof.
  unfold day_row. rewrite (Z.leb_antisym (weekday d) 5).
  destruct (weekday d <? 5); cbn [negb]; [|reflexivity].
  rewrite interval_cells. run. reflexivity.
Qed.

Lemma traverse_map {A B C} (f : B -> M C) (h : A -> B) (l : list A) :
  traverse f (map h l) = traverse (fun a => f (h a)) l.
Proof.
  induction l as [|a l IH]; simpl; [reflexivity | now rewrite IH].
Qed.

Lemma omap_if {A B} (c : A -> bool) (s : A -> B) (l : list A) :
  omap id (map (fun a => if c a then Some (s a) else None) l) = map s (List.filter c l).
Proof.
  induction l as [|a l IH]; simpl; [reflexivity|].
  destruct (c a); simpl; fold (@omap list _ (option B) B id); now rewrite IH.
Qed.

(** The loop of lines 114 to 132 over the groups. *)
Lemma grouped_rows (df : list PriceRow) :
  traverse (day_row utcoffset) (groupby_date utcoffset df) =
  ret (map (fun d => if weekday d <? 5 then Some (summary utcoffset df d) else None)
           (sorted_dates (map (local_date utcoffset) df))).
Proof.
  unfold groupby_date. rewrite traverse_map.
  apply traverse_ret. intros d _. apply day_row_summary.
Qed.

Lemma to_datetime_date_strftime (d k : Z) :
  -200000 <= d <= 200000 ->
  to_datetime_date (strftime_ymd d) = Some k -> k = d * us_per_day.
Proof.
  intros Hd. unfold to_datetime_date. rewrite (parse_strftime d Hd). simpl.
  destruct (in_bounds _); [now intros [= <-] | discriminate].
Qed.

Lemma to_datetime_date_bounds (d : Z) :
  -200000 <= d <= 200000 -> in_bounds (d * us_per_day) = true ->
  to_datetime_date (strftime_ymd d) = Some (d * us_per_day).
Proof.
  intros Hd Hb. unfold to_datetime_date. rewrite (parse_strftime d Hd). simpl.
  now rewrite Hb.
Qed.

Lemma summary_keys (df : list PriceRow) (days : list Z) (cs : list Z) :
  Forall (fun d => -200000 <= d <= 200000) days ->
  mapM (fun r => to_datetime_date (Date r)) (map (summary utcoffset df) days) = Some cs ->
  cs = map (fun d => d * us_per_day) days.
Proof.
  intros H. revert cs. induction H as [|d days Hd Hall IH]; simpl; intros cs.
  - now intros [= <-].
  - destruct (to_datetime_date (strftime_ymd d)) as [k|] eqn:E; simpl; [|discriminate].
    destruct (mapM _ (map _ days)) as [ks|]; simpl; [|discriminate].
    intros [= <-]. rewrite (to_datetime_date_strftime d k Hd E).
    f_equal. apply IH. reflexivity.
Qed.

Lemma summary_keys_total (df : list PriceRow) (days : list Z) :
  Forall (fun d => -200000 <= d <= 200000) days ->
  Forall (fun d => in_bounds (d * us_per_day) = true) days ->
  mapM (fun r => to_datetime_date (Date r)) (map (summary utcoffset df) days)
  = Some (map (fun d => d * us_per_day) days).
Proof.
  induction 1 as [|d days Hd Hall IH]; intros Hb; simpl; [reflexivity|].
  inversion Hb as [|? ? Hbd Hbs]; subst.
  rewrite (to_datetime_date_bounds d Hd Hbd). simpl.
  rewrite (IH Hbs). reflexivity.
Qed.

Lemma scaled_sorted (days : list Z) :
  StronglySorted Z.lt days ->
  StronglySorted Z.lt (map (fun d => d * us_per_day) days).
Proof.
  induction 1 as [|d days Hs IH Hall]; simpl; constructor; [exact IH|].
  apply List.Forall_forall. intros x Hx. apply in_map_iff in Hx.
  destruct Hx as (y & <- & Hy). rewrite List.Forall_forall in Hall.
  specialize (Hall y Hy). unfold us_per_day, us_per_second. lia.
Qed.

(** Sorting rows that come by increasing date, when the dates are read
    back as timestamps: the rows come out unchanged, in the reverse order. *)
Lemma sorted_rows (df : list PriceRow) (days : list Z) (cs : list Z) :
  StronglySorted Z.lt days ->
  cs = map (fun d => d * us_per_day) days ->
  map (fun kr : Z * result_row =>
         {| Date := strftime_ymd (fst kr / us_per_day);
            Day := Day (snd kr); cells := cells (snd kr) |})
      (sort_values_desc (zip_with (fun k r => (k, r)) cs (map (summary utcoffset df) days)))
  = rev (map (summary utcoffset df) days).
Proof.
  intros Hs ->.
  assert (E : zip_with (fun (k : Z) (r : result_row) => (k, r))
                (map (fun d => d * us_per_day) days) (map (summary utcoffset df) days)
              = map (fun d => (d * us_per_day, summary utcoffset df d)) days).
  { clear Hs. induction days as [|d days IH]; simpl; [reflexivity | now rewrite IH]. }
  rewrite E. rewrite sort_values_desc_increasing.
  - rewrite <- map_rev, <- map_rev, map_map. apply map_ext. intros d. simpl.
    rewrite Z.div_mul by (unfold us_per_day, us_per_second; lia). reflexivity.
  - rewrite map_map. simpl. apply scaled_sorted, Hs.
Qed.

(** Lines 135 to 139 on the rows of increasing dates. *)
Lemma sort_by_date_cases (df : list PriceRow) (days : list Z) :
  StronglySorted Z.lt days ->
  Forall (fun d => -200000 <= d <= 200000) days ->
  sort_by_date (map (summary utcoffset df) days) = ret (rev (map (summary utcoffset df) days))
  \/ (sort_by_date (map (summary utcoffset df) days) = raise (Exception "to_datetime")
      /\ ~ Forall (fun d => in_bounds (d * us_per_day) = true) days).
Proof.
  intros Hs Hr. unfold sort_by_date.
  destruct days as [|d0 days0] eqn:Ed; [left; reflexivity|]. rewrite <- Ed in *.
  replace (map (summary utcoffset df) (d0 :: days0))
    with (map (summary utcoffset df) days) by now rewrite Ed.
  destruct (map (summary utcoffset df) days) as [|r0 rs] eqn:Em;
    [rewrite Ed in Em; discriminate|]. rewrite <- Em. clear r0 rs Em.
  destruct (traverse_orelse (fun r => to_datetime_date (Date r))
              (fun k r => (k, r)) "to_datetime" (map (summary utcoffset df) days))
    as [(cs & Hm & Ht)|(Hm & Ht)]; cbv zeta in Ht; rewrite Ht.
  - left. run. unfold ret. do 2 f_equal.
    apply sorted_rows; [exact Hs|]. eapply summary_keys; eassumption.
  - right. split; [reflexivity|]. intros Hb.
    rewrite (summary_keys_total df days Hr Hb) in Hm. discriminate.
Qed.

Lemma trading_dates_sorted (df : list PriceRow) :
  StronglySorted Z.lt (trading_dates utcoffset df).
Proof. apply filter_sorted, sorted_dates_sorted. Qed.

Lemma trading_dates_In (df : list PriceRow) (d : Z) :
  In d (trading_dates utcoffset df) <-> trading_day utcoffset df d.
Proof.
  unfold trading_dates, trading_day.
  rewrite filter_In, sorted_dates_In, in_map_iff, Z.ltb_lt.
  split.
  - intros [(r & E & Hr) Hw]. split; [exact Hw|]. exists r. split; assumption.
  - intros [Hw (r & Hr & E)]. split; [|exact Hw]. exists r. split; assumption.
Qed.

Lemma trading_dates_range (df : list PriceRow) :
  Forall (fun r => in_bounds (index r) = true) df ->
  Forall (fun d => -200000 <= d <= 200000) (trading_dates utcoffset df).
Proof.
  intros Hb. apply List.Forall_forall. intros d Hd.
  apply trading_dates_In in Hd. destruct Hd as [_ (r & Hr & <-)].
  rewrite List.Forall_forall in Hb. apply local_date_range, Hb, Hr.
Qed.

Lemma lookback_In (now : Z) (df : list PriceRow) (r : PriceRow) :
  In r (lookback now df) <-> In r df /\ now - ten_days <= index r <= now.
Proof.
  unfold lookback. cbv zeta. rewrite filter_In, andb_true_iff, !Z.leb_le. tauto.
Qed.

Lemma lookback_bounds (now : Z) (df : list PriceRow) :
  Forall (fun r => in_bounds (index r) = true) df ->
  Forall (fun r => in_bounds (index r) = true) (lookback now df).
Proof.
  rewrite !List.Forall_forall. intros H r Hr. apply lookback_In in Hr. apply H, Hr.
Qed.

Lemma trading_dates_timestamps (now : Z) (df : list PriceRow) :
  clock_ok now ->
  Forall (fun d => in_bounds (d * us_per_day) = true)
         (trading_dates utcoffset (lookback now df)).
Proof.
  intros Hc. apply List.Forall_forall. intros d Hd.
  apply trading_dates_In in Hd. destruct Hd as [_ (r & Hr & <-)].
  apply lookback_In in Hr. destruct Hr as [_ Hr].
  unfold in_bounds, local_date, wall_clock.
  pose proof (zone (index r)) as Hz.
  unfold clock_ok, ten_days, timestamp_min, timestamp_max, us_per_day, us_per_second in *.
  apply andb_true_iff. rewrite !Z.leb_le. Z.div_mod_to_equations; lia.
Qed.

(** The aggregation, once the frame is built and the window is not empty:
    it returns the table of the retained rows, or the reading of a date as a
    timestamp raises. *)
Lemma process_cases (data : json) (symbol : string) (now : Z) (df : list PriceRow) :
  truthy data = true -> data_frame data = ([], Ok df) -> lookback now df <> [] ->
  process_data_for_intervals utcoffset data symbol now
    = ret (Some (table_of utcoffset (lookback now df)))
  \/ (process_data_for_intervals utcoffset data symbol now = raise (Exception "to_datetime")
      /\ ~ clock_ok now).
Proof.
  intros Ht Hd Hl. unfold process_data_for_intervals. rewrite Ht, Hd. cbn [negb]. run.
  rewrite (match_nonempty (lookback now df)) by exact Hl.
  rewrite grouped_rows. run. rewrite omap_if.
  fold (trading_dates utcoffset (lookback now df)).
  pose proof (data_frame_spec _ _ _ Hd) as [_ Hb]. specialize (Hb df eq_refl).
  destruct (sort_by_date_cases (lookback now df) (trading_dates utcoffset (lookback now df)))
    as [E|[E Hn]].
  - apply trading_dates_sorted.
  - apply trading_dates_range, lookback_bounds, Hb.
  - left. rewrite E. run. reflexivity.
  - right. rewrite E. run. split; [reflexivity|].
    intros Hc. apply Hn, trading_dates_timestamps, Hc.
Qed.

(** Every way in which the aggregation returns a table. *)
Lemma process_returns (data : json) (symbol : string) (now : Z)
    (t : list event) (table : list result_row) :
  process_data_for_intervals utcoffset data symbol now = (t, Ok (Some table)) ->
  exists df, truthy data = true /\ data_frame data = ([], Ok df)
             /\ lookback now df <> [] /\ t = []
             /\ table = table_of utcoffset (lookback now df).
Proof.
  intros H.
  destruct (truthy data) eqn:Ht;
    [|unfold process_data_for_intervals in H; rewrite Ht in H; discriminate].
  destruct (data_frame data) as [t0 [df|e]] eqn:Hd;
    [|unfold process_data_for_intervals in H; rewrite Ht, Hd in H; discriminate].
  pose proof (data_frame_spec _ _ _ Hd) as [-> _].
  exists df.
  destruct (lookback now df) as [|r0 rs] eqn:El.
  { unfold process_data_for_intervals in H. rewrite Ht, Hd in H.
    revert H. cbn [negb]. run. rewrite El. unfold bind, emit, ret. simpl. intros [=]. }
  assert (Hl : lookback now df <> []) by (rewrite El; discriminate).
  destruct (process_cases data symbol now df Ht Hd Hl) as [E|[E _]]; rewrite E in H.
  - injection H as <- <-. rewrite El. repeat split; try reflexivity. discriminate.
  - discriminate.
Qed.

Lemma table_of_In (df : list PriceRow) (row : result_row) :
  In row (table_of utcoffset df) <->
  exists d, trading_day utcoffset df d /\ row = summary utcoffset df d.
Proof.
  unfold table_of. rewrite <- in_rev, in_map_iff. split.
  - intros (d & <- & Hd). exists d. split; [apply trading_dates_In, Hd | reflexivity].
  - intros (d & Hd & ->). exists d. split; [reflexivity | apply trading_dates_In, Hd].
Qed.

Lemma summary_cell (df : list PriceRow) (d : Z) (name : string) (s e : Z) :
  In (name, (s, e)) interval_bounds ->
  assoc name (cells (summary utcoffset df d))
  = Some (cell_of (matching utcoffset df d s e)).
Proof.
  unfold interval_bounds.
  intros [[= <- <- <-]|[[= <- <- <-]|[[= <- <- <-]|[]]]]; reflexivity.
Qed.

Lemma matching_In (df : list PriceRow) (d s e : Z) (r : PriceRow) :
  In r (matching utcoffset df d s e) <->
  In r df /\ local_date utcoffset r = d /\ s <= local_time utcoffset r <= e.
Proof.
  unfold matching. rewrite !filter_In, andb_true_iff, !Z.leb_le, Z.eqb_eq. tauto.
Qed.

Lemma table_of_dates (df : list PriceRow) :
  map Date (table_of utcoffset df)
  = map strftime_ymd (rev (trading_dates utcoffset df)).
Proof.
  unfold table_of. rewrite <- map_rev, !map_map. reflexivity.
Qed.

End Zone.

End ProcessFacts.

(** * Facts about the zone *)

Module ZoneFacts.

Import Calendar Spec.

Lemma us_eastern_ok : zone_ok USEastern.utcoffset.
Proof.
  intros t. unfold USEastern.utcoffset.
  destruct (civil_from_days (t / us_per_day)) as [[y m] d].
  destruct (_ && _); unfold USEastern.hour, us_per_day, us_per_second; lia.
Qed.

Lemma clock_now_ok : clock_ok Examples.now.
Proof.
  unfold clock_ok, Examples.now, timestamp_min, timestamp_max, us_per_day, us_per_second.
  lia.
Qed.

End ZoneFacts.

(** * Facts about decimal text *)

Module DecimalFacts.

Import Text Float TextFacts FloatFacts.

Lemma digits_of_digits (fuel : nat) (n : Z) (acc : list ascii) :
  0 <= n -> Forall (fun c => is_digit c = true) acc ->
  Forall (fun c => is_digit c = true) (digits_of fuel n acc).
Proof.
  revert n acc. induction fuel as [|f IH]; intros n acc Hn Hacc; simpl; [exact Hacc|].
  destruct (Z.ltb_spec n 10).
  - constructor; [apply is_digit_chr; lia | exact Hacc].
  - apply IH; [Z.div_mod_to_equations; lia|].
    constructor; [apply is_digit_chr; Z.div_mod_to_equations; lia | exact Hacc].
Qed.

Lemma digits_of_app (fuel : nat) (n : Z) (acc : list ascii) :
  digits_of fuel n acc = digits_of fuel n [] ++ acc.
Proof.
  revert n acc. induction fuel as [|f IH]; intros n acc; simpl; [reflexivity|].
  destruct (n <? 10); [reflexivity|].
  rewrite (IH _ (_ :: acc)), (IH _ [_]), <- app_assoc. reflexivity.
Qed.

Lemma digits_of_nonempty (fuel : nat) (n : Z) (acc : list ascii) :
  digits_of (S fuel) n acc <> [].
Proof.
  simpl. destruct (n <? 10); [discriminate|].
  rewrite digits_of_app. destruct (digits_of fuel (n / 10) []); discriminate.
Qed.

(** Reading the digits of a number gives the number back. *)
Lemma digits_val_digits_of (fuel : nat) (n : Z) (acc : list ascii) :
  0 <= n -> (Z.to_nat n < fuel)%nat ->
  digits_val 0 (digits_of fuel n acc) = digits_val n acc.
Proof.
  revert n acc. induction fuel as [|f IH]; intros n acc Hn Hf; [lia|]. simpl.
  destruct (Z.ltb_spec n 10).
  - simpl. rewrite digit_val_chr by lia. reflexivity.
  - rewrite IH by (Z.div_mod_to_equations; lia).
    simpl. rewrite digit_val_chr by (Z.div_mod_to_equations; lia).
    f_equal. Z.div_mod_to_equations; lia.
Qed.

Lemma nat_repr_val (n : Z) (rest : list ascii) :
  0 <= n -> digits_val 0 (nat_repr n ++ rest) = digits_val n rest.
Proof.
  intros Hn. unfold nat_repr. rewrite <- digits_of_app.
  apply digits_val_digits_of; lia.
Qed.

Lemma nat_repr_digits (n : Z) :
  0 <= n -> Forall (fun c => is_digit c = true) (nat_repr n).
Proof. intros Hn. apply digits_of_digits; [exact Hn | constructor]. Qed.

Lemma nat_repr_nonempty (n : Z) : nat_repr n <> [].
Proof. apply digits_of_nonempty. Qed.

Lemma digit_not (c x : ascii) : is_digit c = true -> is_digit x = false -> Ascii.eqb c x = false.
Proof.
  intros Hc Hx. destruct (Ascii.eqb_spec c x); [subst; congruence | reflexivity].
Qed.

Lemma split_point_digits (ds rest : list ascii) :
  Forall (fun c => is_digit c = true) ds ->
  split_point (ds ++ "."%char :: rest) = (ds, Some rest).
Proof.
  induction 1 as [|c ds Hc Hds IH]; simpl; [reflexivity|].
  rewrite (digit_not c "."%char Hc eq_refl), IH. reflexivity.
Qed.

Lemma rint_inject_Z (k : Z) : rint (inject_Z k) = k.
Proof.
  unfold rint. rewrite Qfloor_Z.
  assert (E : (inject_Z k - inject_Z k ?= 1 # 2)%Q = Lt).
  { apply (proj1 (Qlt_alt _ _)). unfold Qlt, Qminus, Qplus, Qopp, inject_Z. simpl. lia. }
  rewrite E. reflexivity.
Qed.

Lemma rint_hundredths (k : Z) : rint ((k # 100) * 100) = k.
Proof.
  rewrite (rint_comp _ (inject_Z k)); [apply rint_inject_Z|].
  unfold Qeq, Qmult, inject_Z. simpl. lia.
Qed.

(** A text that starts with a digit is read without a sign. *)
Lemma to_numeric_unsigned (c : ascii) (l : list ascii) :
  is_digit c = true ->
  to_numeric (of_chars (c :: l))
  = match unsigned_decimal (c :: l) with Some q => Fin q | None => NaN end.
Proof.
  intros Hc. unfold to_numeric. rewrite chars_of_chars.
  destruct c as [[] [] [] [] [] [] [] []]; try reflexivity; discriminate.
Qed.

Lemma unsigned_decimal_point (m : Z) (frac : list ascii) (f : Z) :
  0 <= m -> frac <> [] -> digits_val m frac = Some f ->
  unsigned_decimal (nat_repr m ++ "."%char :: frac)
  = Some (f # Z.to_pos (10 ^ Z.of_nat (length frac))).
Proof.
  intros Hm Hne Hf. unfold unsigned_decimal.
  rewrite (split_point_digits _ _ (nat_repr_digits m Hm)).
  destruct (nat_repr m ++ frac) as [|c r] eqn:E.
  { destruct (nat_repr m); [destruct frac; [congruence|discriminate] | discriminate]. }
  rewrite <- E, nat_repr_val, Hf by exact Hm. reflexivity.
Qed.

(** The text of a count of hundredths is read back as that many
    hundredths. *)
Lemma to_numeric_cents (k : Z) :
  exists q, to_numeric (of_chars (cents_repr k)) = Fin q /\ (q * 100 == inject_Z k)%Q.
Proof.
  unfold cents_repr.
  set (a := Z.abs k). set (m := a / 100). set (fr := a mod 100).
  assert (Ha : 0 <= a) by (subst a; lia).
  assert (Hm : 0 <= m) by (subst m; Z.div_mod_to_equations; lia).
  assert (Hfr : 0 <= fr <= 99) by (subst fr; Z.div_mod_to_equations; lia).
  assert (Eam : a = 100 * m + fr) by (subst m fr; Z.div_mod_to_equations; lia).
  set (frac := if (fr mod 10 =? 0)%Z then [digit_chr (fr / 10)] else pad2 fr).
  assert (Hfrac : exists f, digits_val m frac = Some f /\ frac <> [] /\
            ((f # Z.to_pos (10 ^ Z.of_nat (length frac))) * 100 == inject_Z a)%Q).
  { subst frac. destruct (Z.eqb_spec (fr mod 10) 0) as [E|E].
    - exists (10 * m + fr / 10)%Z. simpl.
      rewrite digit_val_chr by (Z.div_mod_to_equations; lia).
      split; [reflexivity|]. split; [discriminate|].
      unfold Qeq, Qmult, inject_Z. simpl. Z.div_mod_to_equations; lia.
    - exists a. unfold pad2. simpl.
      rewrite !digit_val_chr by (Z.div_mod_to_equations; lia).
      split; [f_equal; Z.div_mod_to_equations; lia|]. split; [discriminate|].
      unfold Qeq, Qmult, inject_Z. simpl. lia. }
  destruct Hfrac as (f & Hf & Hne & Eq).
  pose proof (unsigned_decimal_point m frac f Hm Hne Hf) as Hu.
  destruct (Z.ltb_spec k 0) as [Hk|Hk].
  - cbn [app]. unfold to_numeric. rewrite chars_of_chars. cbn iota. rewrite Hu.
    eexists. split; [reflexivity|].
    assert (En : ((- (f # Z.to_pos (10 ^ Z.of_nat (length frac)))) * 100
                  == - ((f # Z.to_pos (10 ^ Z.of_nat (length frac))) * 100))%Q) by ring.
    rewrite En, Eq. unfold Qeq, Qopp, inject_Z. simpl. subst a. lia.
  - cbn [app].
    destruct (nat_repr m) as [|c r] eqn:En; [exfalso; eapply nat_repr_nonempty, En|].
    pose proof (nat_repr_digits m Hm) as Hd. rewrite En in Hd.
    inversion Hd as [|? ? Hc _]; subst.
    cbn [app]. rewrite (to_numeric_unsigned c _ Hc).
    change (c :: r ++ "."%char :: frac) with ((c :: r) ++ "."%char :: frac).
    rewrite Hu. eexists. split; [reflexivity|].
    rewrite Eq. unfold Qeq, inject_Z. simpl. subst a. lia.
Qed.

End DecimalFacts.

(** * Facts about the CSV export *)

Module CsvFacts.

Import Text Calendar Float Effects App Spec Reference.
Import TextFacts CalendarFacts FloatFacts DecimalFacts.

Lemma plain_not (c : ascii) :
  plain c = true ->
  Ascii.eqb c ","%char = false /\ Ascii.eqb c newline = false.
Proof.
  unfold plain. rewrite negb_true_iff, !orb_false_iff. tauto.
Qed.

Lemma csv_field_plain (s : string) :
  forallb plain (chars s) = true -> csv_field s = chars s.
Proof.
  intros H. unfold csv_field, needs_quoting.
  assert (E : existsb (fun c => Ascii.eqb c ","%char || Ascii.eqb c quote_char
                                || Ascii.eqb c newline || Ascii.eqb c carriage_return)
                      (chars s) = false).
  { induction (chars s) as [|c l IH]; simpl in *; [reflexivity|].
    apply andb_true_iff in H. destruct H as [Hc Hl].
    unfold plain in Hc. apply negb_true_iff in Hc. rewrite Hc. simpl. apply IH, Hl. }
  rewrite E. reflexivity.
Qed.

Lemma split_on_app (sep : ascii) (a b : list ascii) :
  Forall (fun c => Ascii.eqb c sep = false) a ->
  split_on sep (a ++ sep :: b) = a :: split_on sep b.
Proof.
  induction 1 as [|c a Hc Ha IH]; simpl.
  - rewrite Ascii.eqb_refl. reflexivity.
  - rewrite Hc, IH. reflexivity.
Qed.

Lemma split_on_single (sep : ascii) (a : list ascii) :
  Forall (fun c => Ascii.eqb c sep = false) a -> split_on sep a = [a].
Proof.
  induction 1 as [|c a Hc Ha IH]; simpl; [reflexivity|].
  rewrite Hc, IH. reflexivity.
Qed.

Lemma split_five (f1 f2 f3 f4 f5 : list ascii) :
  Forall (fun c => Ascii.eqb c ","%char = false) f1 ->
  Forall (fun c => Ascii.eqb c ","%char = false) f2 ->
  Forall (fun c => Ascii.eqb c ","%char = false) f3 ->
  Forall (fun c => Ascii.eqb c ","%char = false) f4 ->
  Forall (fun c => Ascii.eqb c ","%char = false) f5 ->
  split_on ","%char (f1 ++ ","%char :: f2 ++ ","%char :: f3 ++ ","%char :: f4
                     ++ ","%char :: f5)
  = [f1; f2; f3; f4; f5].
Proof.
  intros H1 H2 H3 H4 H5.
  rewrite !split_on_app by assumption. rewrite split_on_single by assumption.
  reflexivity.
Qed.

Lemma split_lines (ls : list (list ascii)) :
  Forall (Forall (fun c => Ascii.eqb c newline = false)) ls ->
  split_on newline (flat_map (fun l => l ++ [newline]) ls) = ls ++ [[]].
Proof.
  induction 1 as [|l ls Hl Hls IH]; simpl; [reflexivity|].
  rewrite <- app_assoc. cbn [app]. rewrite split_on_app by exact Hl.
  rewrite IH. reflexivity.
Qed.

Lemma lines_flat_map (ls : list (list ascii)) :
  Forall (Forall (fun c => Ascii.eqb c newline = false)) ls ->
  lines (flat_map (fun l => l ++ [newline]) ls) = Some ls.
Proof.
  intros H. unfold lines. rewrite (split_lines ls H), rev_app_distr. simpl.
  rewrite rev_involutive. reflexivity.
Qed.

(** The characters of the fields. *)
Lemma forallb_plain_Forall (l : list ascii) :
  Forall (fun c => plain c = true) l -> forallb plain l = true.
Proof. intros H. apply forallb_forall. apply List.Forall_forall, H. Qed.

Lemma digit_plain (c : ascii) : is_digit c = true -> plain c = true.
Proof.
  intros H. unfold plain.
  rewrite (digit_not c ","%char H eq_refl), (digit_not c quote_char H eq_refl),
    (digit_not c newline H eq_refl), (digit_not c carriage_return H eq_refl).
  reflexivity.
Qed.

Lemma digit_chr_plain (d : Z) : 0 <= d <= 9 -> plain (digit_chr d) = true.
Proof. intros H. apply digit_plain, is_digit_chr, H. Qed.

Lemma strftime_plain (d : Z) :
  -200000 <= d <= 200000 -> Forall (fun c => plain c = true) (chars (strftime_ymd d)).
Proof.
  intros Hd. unfold strftime_ymd.
  destruct (civil_from_days d) as [[y m] dd] eqn:E.
  destruct (civil_from_days_spec _ _ _ _ E) as (Hm & Hdd & _ & Hy).
  assert (0 <= y <= 9999) by (Z.div_mod_to_equations; lia).
  assert (dd <= 31).
  { unfold days_in_month in Hdd.
    destruct (m =? 2); [destruct (is_leap y)|destruct (_ || _)]; lia. }
  rewrite chars_of_chars. unfold pad4, pad2. cbn [app].
  repeat (constructor;
          [first [reflexivity | apply digit_chr_plain; Z.div_mod_to_equations; lia]|]).
  constructor.
Qed.

Lemma day_name_plain (d : Z) : Forall (fun c => plain c = true) (chars (day_name d)).
Proof.
  unfold day_name. pose proof (weekday_range d) as H.
  assert (Hc : weekday d = 0 \/ weekday d = 1 \/ weekday d = 2 \/ weekday d = 3
               \/ weekday d = 4 \/ weekday d = 5 \/ weekday d = 6) by lia.
  destruct Hc as [E|[E|[E|[E|[E|[E|E]]]]]]; rewrite E;
    apply List.Forall_forall; apply forallb_forall; reflexivity.
Qed.

Lemma float_repr_hundredths (k : Z) : float_repr (k # 100) = of_chars (cents_repr k).
Proof. unfold float_repr. rewrite rint_hundredths. reflexivity. Qed.

Lemma cents_repr_plain (k : Z) : Forall (fun c => plain c = true) (cents_repr k).
Proof.
  unfold cents_repr.
  set (a := Z.abs k).
  assert (Ha : 0 <= a) by (subst a; lia).
  apply Forall_app. split; [destruct (k <? 0); repeat constructor|].
  apply Forall_app. split.
  - eapply List.Forall_impl; [|apply nat_repr_digits; Z.div_mod_to_equations; lia].
    intros c. apply digit_plain.
  - constructor; [reflexivity|].
    destruct (a mod 100 mod 10 =? 0); unfold pad2;
      repeat (constructor; [apply digit_chr_plain; Z.div_mod_to_equations; lia|]);
      constructor.
Qed.

Lemma csv_cell_plain (c : cell) :
  table_cell c -> Forall (fun x => plain x = true) (chars (csv_cell c)).
Proof.
  intros [|k|]; simpl.
  - constructor.
  - rewrite float_repr_hundredths, chars_of_chars. apply cents_repr_plain.
  - apply List.Forall_forall; apply forallb_forall; reflexivity.
Qed.

Lemma cents_repr_nonempty (k : Z) : cents_repr k <> [].
Proof.
  unfold cents_repr. destruct (k <? 0); [discriminate|]. cbn [app].
  destruct (nat_repr _); discriminate.
Qed.

(** A cell is read back from its text. *)
Lemma read_cell_csv_cell (c : cell) : table_cell c -> read_cell (chars (csv_cell c)) = c.
Proof.
  intros [|k|]; simpl; [reflexivity| |reflexivity].
  rewrite float_repr_hundredths, chars_of_chars. unfold read_cell.
  destruct (cents_repr k) as [|x l] eqn:E; [exfalso; eapply cents_repr_nonempty, E|].
  rewrite <- E. destruct (to_numeric_cents k) as (q & -> & Eq).
  simpl. do 2 f_equal. f_equal. rewrite (rint_comp _ _ Eq). apply rint_inject_Z.
Qed.

Lemma table_cell_text (c : cell) :
  table_cell c -> c <> CNum NaN -> number_or_no_data (csv_cell c).
Proof.
  intros [|k|] Hn; simpl.
  - congruence.
  - left. exists k. apply float_repr_hundredths.
  - right. reflexivity.
Qed.

Lemma cell_of_table_cell (rows : list PriceRow) : table_cell (cell_of rows).
Proof.
  unfold cell_of. destruct rows; [constructor|].
  destruct (mean_of_means _); simpl; constructor.
Qed.

Lemma plain_no_comma (l : list ascii) :
  Forall (fun c => plain c = true) l -> Forall (fun c => Ascii.eqb c ","%char = false) l.
Proof. apply List.Forall_impl. intros c H. exact (proj1 (plain_not c H)). Qed.

Lemma plain_no_newline (l : list ascii) :
  Forall (fun c => plain c = true) l -> Forall (fun c => Ascii.eqb c newline = false) l.
Proof. apply List.Forall_impl. intros c H. exact (proj2 (plain_not c H)). Qed.

Lemma header_line :
  csv_line ("Date" :: "Day" :: summary_columns) = chars csv_header ++ [newline].
Proof. vm_compute. reflexivity. Qed.

Lemma header_split :
  map of_chars (split_on ","%char (chars csv_header)) = "Date" :: "Day" :: summary_columns.
Proof. vm_compute. reflexivity. Qed.

Lemma header_no_newline :
  Forall (fun c => Ascii.eqb c newline = false) (chars csv_header).
Proof.
  assert (H : forallb (fun c => negb (Ascii.eqb c newline)) (chars csv_header) = true)
    by reflexivity.
  rewrite forallb_forall in H. apply List.Forall_forall.
  intros c Hc. apply negb_true_iff, H, Hc.
Qed.

(** The line of a row of the table, and the row read back from it. *)
Lemma table_row_line (r : result_row) :
  table_row r ->
  exists line,
    csv_line (map (fun c => csv_cell (row_get r c)) ("Date" :: "Day" :: summary_columns))
    = line ++ [newline]
    /\ row_line r line
    /\ Forall (fun c => Ascii.eqb c newline = false) line
    /\ read_row summary_columns line = Some r.
Proof.
  intros [(d & Hd & HDate & HDay) (c1 & c2 & c3 & Hcells & T1 & T2 & T3)].
  assert (E1 : row_get r "Morning (9:00-9:35 AM)" = c1)
    by (unfold row_get; rewrite Hcells; reflexivity).
  assert (E2 : row_get r "Mid-Morning (11:00-11:30 AM)" = c2)
    by (unfold row_get; rewrite Hcells; reflexivity).
  assert (E3 : row_get r "Market Close (3:30-4:00 PM)" = c3)
    by (unfold row_get; rewrite Hcells; reflexivity).
  assert (P1 : Forall (fun c => plain c = true) (chars (Date r)))
    by (rewrite HDate; apply strftime_plain, Hd).
  assert (P2 : Forall (fun c => plain c = true) (chars (Day r)))
    by (rewrite HDay; apply day_name_plain).
  pose proof (csv_cell_plain c1 T1) as P3.
  pose proof (csv_cell_plain c2 T2) as P4.
  pose proof (csv_cell_plain c3 T3) as P5.
  exists (chars (Date r) ++ ","%char :: chars (Day r) ++ ","%char ::
          chars (csv_cell c1) ++ ","%char :: chars (csv_cell c2)
          ++ ","%char :: chars (csv_cell c3)).
  split; [|split; [|split]].
  - unfold csv_line, summary_columns. cbn [map].
    change (row_get r "Date") with (CStr (Date r)).
    change (row_get r "Day") with (CStr (Day r)).
    rewrite E1, E2, E3. cbn [csv_cell].
    rewrite !csv_field_plain by (apply forallb_plain_Forall; assumption).
    cbn [join_fields]. repeat rewrite <- app_assoc. reflexivity.
  - exists d, c1, c2, c3. repeat split; assumption.
  - repeat (apply Forall_app; split; [apply plain_no_newline; assumption|];
            constructor; [reflexivity|]).
    apply plain_no_newline, P5.
  - unfold read_row.
    rewrite split_five by (apply plain_no_comma; assumption).
    unfold summary_columns. cbn [length Nat.eqb map zip zip_with].
    rewrite !read_cell_csv_cell by assumption. rewrite !of_chars_chars.
    destruct r as [rd ry rc]. simpl in Hcells. subst rc. reflexivity.
Qed.

Lemma table_lines (table : list result_row) :
  Forall table_row table ->
  exists body,
    flat_map (fun r => csv_line (map (fun c => csv_cell (row_get r c))
                                     ("Date" :: "Day" :: summary_columns))) table
    = flat_map (fun l => l ++ [newline]) body
    /\ Forall2 row_line table body
    /\ Forall (Forall (fun c => Ascii.eqb c newline = false)) body
    /\ mapM (read_row summary_columns) body = Some table.
Proof.
  induction 1 as [|r table Hr Hall (body & E & F & N & M)].
  - exists []. repeat split; constructor.
  - destruct (table_row_line r Hr) as (line & El & Hl & Nl & Rl).
    exists (line :: body). cbn [flat_map]. rewrite El, E.
    split; [reflexivity|]. split; [constructor; assumption|].
    split; [constructor; assumption|].
    simpl. rewrite Rl. simpl. rewrite M. reflexivity.
Qed.

(** The export of a table of the aggregation: the header, a line per row,
    and the table read back from the text. *)
Lemma export_round_trip (table : list result_row) :
  table <> [] -> Forall table_row table ->
  exists body,
    chars (to_csv table)
    = chars csv_header ++ newline :: flat_map (fun l => l ++ [newline]) body
    /\ Forall2 row_line table body
    /\ read_csv (to_csv table) = Some table.
Proof.
  intros Hne Hall.
  destruct (table_lines table Hall) as (body & E & F & N & M).
  assert (Hcols : columns table = "Date" :: "Day" :: summary_columns).
  { destruct table as [|r0 rest]; [congruence|].
    inversion Hall as [|? ? [_ (c1 & c2 & c3 & Hc & _)] _]; subst.
    unfold columns. rewrite Hc. reflexivity. }
  assert (Htext : chars (to_csv table)
                  = flat_map (fun l => l ++ [newline]) (chars csv_header :: body)).
  { unfold to_csv. rewrite chars_of_chars. cbv zeta. rewrite Hcols, header_line, E.
    reflexivity. }
  exists body. split; [|split; [exact F|]].
  - rewrite Htext. cbn [flat_map]. rewrite <- app_assoc. reflexivity.
  - unfold read_csv. rewrite Htext.
    rewrite lines_flat_map by (constructor; [apply header_no_newline | exact N]).
    cbn [mbind option_bind]. rewrite header_split.
    unfold summary_columns at 1. cbn [String.eqb Ascii.eqb Bool.eqb andb].
    exact M.
Qed.

End CsvFacts.

(** * The claims of the specification *)

Import Text Calendar Float Effects App Spec.
Import TextFacts CalendarFacts EffectsFacts SortFacts FloatFacts ProcessFacts ZoneFacts.

(** The clock times of the windows are those written in the program. *)
Lemma interval_bounds_intervals :
  map (fun iv => (fst iv, (to_time (fst (snd iv)), to_time (snd (snd iv))))) intervals
  = map (fun iv => (fst iv, (Some (fst (snd iv)), Some (snd (snd iv))))) interval_bounds.
Proof. reflexivity. Qed.

(** Every row of a returned table is the summary of a trading date of the
    retained rows. *)
Lemma returned_rows (utcoffset : Z -> Z) (data : json) (symbol : string) (now : Z)
    (t : list event) (table : list result_row) :
  zone_ok utcoffset ->
  process_data_for_intervals utcoffset data symbol now = (t, Ok (Some table)) ->
  exists df, data_frame data = ([], Ok df) /\ lookback now df <> [] /\ t = [] /\
    table = table_of utcoffset (lookback now df) /\
    Forall (fun d => -200000 <= d <= 200000) (trading_dates utcoffset (lookback now df)).
Proof.
  intros Hz H.
  destruct (process_returns utcoffset Hz _ _ _ _ _ H) as (df & Ht & Hd & Hl & -> & ->).
  exists df. repeat split; try assumption.
  apply trading_dates_range; [exact Hz|].
  apply lookback_bounds.
  destruct (data_frame_spec _ _ _ Hd) as [_ Hb]. apply Hb. reflexivity.
Qed.




(** C2: every row of the table carries a date that is not a Saturday or a
    Sunday; the row's text is that date, and its day name is the date's. *)
Theorem no_weekend_rows
    (utcoffset : Z -> Z) (data : json) (symbol : string) (now : Z)
    (t : list event) (table : list result_row) :
  zone_ok utcoffset ->
  process_data_for_intervals utcoffset data symbol now = (t, Ok (Some table)) ->
  forall row, In row table ->
  exists d, parse_ymd (Date row) = Some d /\ weekday d < 5 /\ Day row = day_name d
            /\ Day row <> "Saturday" /\ Day row <> "Sunday".
Proof.
  intros Hz H row Hrow.
  destruct (returned_rows _ _ _ _ _ _ Hz H) as (df & Hd & _ & _ & -> & Hr).
  apply table_of_In in Hrow. destruct Hrow as (d & Hday & ->).
  pose proof (proj2 (trading_dates_In utcoffset _ d) Hday) as Hin.
  rewrite List.Forall_forall in Hr. specialize (Hr d Hin).
  destruct Hday as [Hw _].
  exists d. split; [apply parse_strftime, Hr|]. split; [exact Hw|].
  split; [reflexivity|]. simpl. unfold day_name.
  pose proof (weekday_range d) as Hwr.
  assert (Hc : weekday d = 0 \/ weekday d = 1 \/ weekday d = 2 \/ weekday d = 3
               \/ weekday d = 4) by lia.
  destruct Hc as [E|[E|[E|[E|E]]]]; rewrite E; split; discriminate.
Qed.

Lemma no_weekend_rows_witness :
  exists d, parse_ymd "2024-01-03" = Some d /\ weekday d < 5 /\ "Wednesday" = day_name d
            /\ "Wednesday" <> "Saturday" /\ "Wednesday" <> "Sunday".
Proof.
  refine (no_weekend_rows USEastern.utcoffset Examples.three_days "AAPL" Examples.now []
            [{| Date := "2024-01-03"; Day := "Wednesday";
                cells := [("Morning (9:00-9:35 AM)", CStr "No Data");
                          ("Mid-Morning (11:00-11:30 AM)", CNum (Fin (2012 # 100)));
                          ("Market Close (3:30-4:00 PM)", CStr "No Data")] |};
             {| Date := "2024-01-02"; Day := "Tuesday";
                cells := [("Morning (9:00-9:35 AM)", CNum (Fin (1050 # 100)));
                          ("Mid-Morning (11:00-11:30 AM)", CStr "No Data");
                          ("Market Close (3:30-4:00 PM)", CStr "No Data")] |};
             {| Date := "2023-12-29"; Day := "Friday";
                cells := [("Morning (9:00-9:35 AM)", CStr "No Data");
                          ("Mid-Morning (11:00-11:30 AM)", CStr "No Data");
                          ("Market Close (3:30-4:00 PM)", CNum (Fin (250 # 100)))] |}]
            us_eastern_ok _
            {| Date := "2024-01-03"; Day := "Wednesday";
               cells := [("Morning (9:00-9:35 AM)", CStr "No Data");
                         ("Mid-Morning (11:00-11:30 AM)", CNum (Fin (2012 # 100)));
                         ("Market Close (3:30-4:00 PM)", CStr "No Data")] |} _).
  - vm_compute. reflexivity.
  - left. reflexivity.
Defined.

(** C3: for every row of the table and each window, when no retained row of
    that date has its clock time within the window, the cell is the text
    [No Data], and so it is not a number. *)
Theorem no_match_is_no_data
    (utcoffset : Z -> Z) (data : json) (symbol : string) (now : Z)
    (t : list event) (table : list result_row) :
  zone_ok utcoffset ->
  process_data_for_intervals utcoffset data symbol now = (t, Ok (Some table)) ->
  exists df, data_frame data = ([], Ok df) /\
    forall row, In row table ->
    exists d, trading_day utcoffset (lookback now df) d /\ Date row = strftime_ymd d /\
      forall name s e, In (name, (s, e)) interval_bounds ->
        matching utcoffset (lookback now df) d s e = [] ->
        assoc name (cells row) = Some (CStr "No Data")
        /\ forall x, assoc name (cells row) <> Some (CNum x).
Proof.
  intros Hz H.
  destruct (returned_rows _ _ _ _ _ _ Hz H) as (df & Hd & _ & _ & -> & _).
  exists df. split; [exact Hd|]. intros row Hrow.
  apply table_of_In in Hrow. destruct Hrow as (d & Hday & ->).
  exists d. split; [exact Hday|]. split; [reflexivity|].
  intros name s e Hin Hempty.
  rewrite (summary_cell utcoffset _ d name s e Hin), Hempty. simpl.
  split; [reflexivity | discriminate].
Qed.

Lemma no_match_is_no_data_witness :
  exists df d,
    data_frame Examples.one_bar = ([], Ok df)
    /\ trading_day USEastern.utcoffset (lookback Examples.now df) d
    /\ strftime_ymd d = "2024-01-02"
    /\ matching USEastern.utcoffset (lookback Examples.now df) d
         39600000000 41400000000 = []
    /\ Some (CStr "No Data") = Some (CStr "No Data")
    /\ forall x, Some (CStr "No Data") <> Some (CNum x).
Proof.
  destruct (no_match_is_no_data USEastern.utcoffset Examples.one_bar
              "AAPL" Examples.now []
              [{| Date := "2024-01-02"; Day := "Tuesday";
                cells := [("Morning (9:00-9:35 AM)", CNum (Fin (1050 # 100)));
                          ("Mid-Morning (11:00-11:30 AM)", CStr "No Data");
                          ("Market Close (3:30-4:00 PM)", CStr "No Data")] |}]
              us_eastern_ok)
    as (df & Hd & H); [vm_compute; reflexivity|].
  destruct (H _ (or_introl eq_refl)) as (d & Hday & HDate & Hcell).
  exists df, d. vm_compute in Hd. injection Hd as <-.
  split; [reflexivity|]. split; [exact Hday|]. split; [symmetry; exact HDate|].
  destruct Hday as [_ (r & Hr & <-)].
  vm_compute in Hr. destruct Hr as [<-|[]].
  split; [vm_compute; reflexivity|].
  apply (Hcell "Mid-Morning (11:00-11:30 AM)" 39600000000 41400000000).
  - right. left. reflexivity.
  - vm_compute. reflexivity.
Defined.

(** C8: once the frame is built and some row is retained, the aggregation
    returns a table (for a clock within the range of timestamps), and a
    returned table has exactly one row per trading date of the retained
    rows, in strictly decreasing order of date. *)
Theorem one_row_per_trading_day_latest_first
    (utcoffset : Z -> Z) (data : json) (symbol : string) (now : Z)
    (df : list PriceRow) :
  zone_ok utcoffset ->
  truthy data = true -> data_frame data = ([], Ok df) -> lookback now df <> [] ->
  (clock_ok now ->
   exists table,
     process_data_for_intervals utcoffset data symbol now = ([], Ok (Some table)))
  /\ forall t table,
       process_data_for_intervals utcoffset data symbol now = (t, Ok (Some table)) ->
       exists days,
         map Date table = map strftime_ymd days
         /\ map (fun row => parse_ymd (Date row)) table = map Some days
         /\ StronglySorted Z.gt days
         /\ forall d, In d days <-> trading_day utcoffset (lookback now df) d.
Proof.
  intros Hz Ht Hd Hl. split.
  - intros Hc.
    destruct (process_cases utcoffset Hz data symbol now df Ht Hd Hl) as [E|[_ Hn]];
      [|contradiction].
    eexists. exact E.
  - intros t table H.
    destruct (returned_rows _ _ _ _ _ _ Hz H) as (df' & Hd' & _ & _ & -> & Hr).
    assert (df' = df) as -> by congruence.
    exists (rev (trading_dates utcoffset (lookback now df))).
    split; [apply table_of_dates|]. split.
    + rewrite <- (map_map Date parse_ymd), table_of_dates, map_map.
      apply map_ext_in. intros d Hin. apply parse_strftime.
      rewrite List.Forall_forall in Hr. apply Hr, in_rev, Hin.
    + split; [apply rev_sorted_gt, trading_dates_sorted|].
      intros d. rewrite <- in_rev. apply trading_dates_In.
Qed.

Lemma one_row_per_trading_day_latest_first_witness :
  exists df table days,
    data_frame Examples.three_days = ([], Ok df)
    /\ process_data_for_intervals USEastern.utcoffset Examples.three_days "AAPL" Examples.now
       = ([], Ok (Some table))
    /\ map Date table = ["2024-01-03"; "2024-01-02"; "2023-12-29"]
    /\ map Date table = map strftime_ymd days
    /\ map (fun row => parse_ymd (Date row)) table = map Some days
    /\ StronglySorted Z.gt days
    /\ forall d, In d days <-> trading_day USEastern.utcoffset (lookback Examples.now df) d.
Proof.
  eexists.
  edestruct (one_row_per_trading_day_latest_first USEastern.utcoffset Examples.three_days
               "AAPL" Examples.now)
    as [Htotal Hpartial];
    [exact us_eastern_ok | reflexivity | vm_compute; reflexivity | vm_compute; discriminate|].
  destruct (Htotal clock_now_ok) as [table E].
  destruct (Hpartial [] table E) as (days & H1 & H2 & H3 & H4).
  exists table, days.
  split; [reflexivity|]. split; [exact E|].
  split; [vm_compute in E; injection E as <-; reflexivity|].
  split; [exact H1|]. split; [exact H2|]. split; [exact H3 | exact H4].
Defined.

(** The aggregation when no row is retained. *)
Lemma process_empty_window (utcoffset : Z -> Z) (data : json) (symbol : string)
    (now : Z) (df : list PriceRow) :
  truthy data = true -> data_frame data = ([], Ok df) -> lookback now df = [] ->
  process_data_for_intervals utcoffset data symbol now
  = ([StWarning (Plain "No data available for the past 7 days.")], Ok None).
Proof.
  intros Ht Hd Hl. unfold process_data_for_intervals.
  rewrite Ht, Hd. cbn [negb]. run. rewrite Hl. reflexivity.
Qed.

(** C4: the retained rows are exactly the rows whose instant lies between
    ten days (240 hours) before the clock's instant and that instant, both
    included; when none is retained the aggregation returns no table and
    writes one warning, and the page shows warnings only: no error, no
    table, no export. *)
Theorem lookback_window_and_empty_outcome
    (utcoffset : Z -> Z) (net : string -> http_response) (now : Z)
    (symbol_input : string) (data : json) (df : list PriceRow)
    (fetched : list event) :
  let symbol := strip (upper symbol_input) in
  validate_symbol symbol = true ->
  fetch_intraday_data net symbol = (fetched, Ok (Some data)) ->
  truthy data = true ->
  data_frame data = ([], Ok df) ->
  (forall r, In r (lookback now df) <->
             In r df /\ now - 10 * 86400 * 1000000 <= index r <= now)
  /\ (lookback now df = [] ->
      process_data_for_intervals utcoffset data symbol now
      = ([StWarning (Plain "No data available for the past 7 days.")], Ok None)
      /\ main utcoffset net now symbol_input true
         = (fetched ++
            [StWarning (Plain "No data available for the past 7 days.");
             StWarning (Plain
               "No trading data available for the specified symbol in the past 7 days.")],
            Ok tt)).
Proof.
  intros symbol Hv Hf Ht Hd. split; [intros r; apply lookback_In|].
  intros Hl.
  pose proof (process_empty_window utcoffset data symbol now df Ht Hd Hl) as Hp.
  split; [exact Hp|].
  unfold main. fold symbol. rewrite Hv. cbn [negb].
  unfold mbind, M_bind, bind. rewrite Hf, Ht. fold symbol. rewrite Hp.
  reflexivity.
Qed.

Lemma lookback_window_and_empty_outcome_witness :
  exists df,
  (forall r, In r (lookback Examples.now df) <->
             In r df /\ Examples.now - 10 * 86400 * 1000000 <= index r <= Examples.now)
  /\ lookback Examples.now df = []
  /\ process_data_for_intervals USEastern.utcoffset Examples.old_bar "AAPL" Examples.now
     = ([StWarning (Plain "No data available for the past 7 days.")], Ok None)
  /\ main USEastern.utcoffset (Examples.provider Examples.old_bar) Examples.now
        " aapl" true
     = ([Request "AAPL"] ++
        [StWarning (Plain "No data available for the past 7 days.");
         StWarning (Plain
           "No trading data available for the specified symbol in the past 7 days.")],
        Ok tt).
Proof.
  eexists.
  edestruct (lookback_window_and_empty_outcome USEastern.utcoffset
               (Examples.provider Examples.old_bar) Examples.now " aapl" Examples.old_bar)
    as [H1 H2];
    [reflexivity | vm_compute; reflexivity | reflexivity | vm_compute; reflexivity |].
  split; [exact H1|].
  split; [vm_compute; reflexivity|].
  apply H2. vm_compute. reflexivity.
Defined.

(** The fetch writes the request and at most one error, and never raises. *)
Lemma fetch_shape (net : string -> http_response) (symbol : string) :
  exists errors r,
    fetch_intraday_data net symbol = (Request symbol :: errors, Ok r)
    /\ Forall (fun ev => exists m, ev = StError m) errors
    /\ (r = None \/ errors = []).
Proof.
  unfold fetch_intraday_data, try_except, mbind, M_bind, bind, emit, ret, raise.
  destruct (net symbol) as [e|e|e|body]; simpl;
    try (eexists; eexists; split; [reflexivity|];
         split; [repeat constructor; eexists; reflexivity | left; reflexivity]).
  destruct (body !! "Error Message") as [v|]; simpl;
    [eexists; eexists; split; [reflexivity|];
     split; [repeat constructor; eexists; reflexivity | left; reflexivity]|].
  destruct (has_key "Note" body); simpl;
    [eexists; eexists; split; [reflexivity|];
     split; [repeat constructor; eexists; reflexivity | left; reflexivity]|].
  destruct (has_key "Information" body); simpl;
    [eexists; eexists; split; [reflexivity|];
     split; [repeat constructor; eexists; reflexivity | left; reflexivity]|].
  destruct (body !! time_series_key) as [series|]; simpl.
  - eexists; eexists; split; [reflexivity|]. split; [constructor | right; reflexivity].
  - eexists; eexists; split; [reflexivity|].
    split; [repeat constructor; eexists; reflexivity | left; reflexivity].
Qed.

(** A page that shows a table or offers an export has fetched something. *)
Lemma main_without_data (utcoffset : Z -> Z) (net : string -> http_response)
    (now : Z) (symbol_input : string) (ev : event) :
  outcome (fetch_intraday_data net (strip (upper symbol_input))) = Ok None ->
  In ev (trace (main utcoffset net now symbol_input true)) ->
  ev = Request (strip (upper symbol_input)) \/ exists m, ev = StError m.
Proof.
  intros Ho. unfold main.
  destruct (validate_symbol (strip (upper symbol_input))); cbn [negb].
  - destruct (fetch_shape net (strip (upper symbol_input)))
      as (errors & r & Hf & He & _).
    rewrite Hf in Ho. simpl in Ho. injection Ho as ->.
    unfold mbind, M_bind, bind. rewrite Hf. simpl.
    intros [<-|Hin]; [left; reflexivity|]. right.
    rewrite app_nil_r in Hin. rewrite List.Forall_forall in He. apply He, Hin.
  - simpl. intros [<-|[]]. right. eexists. reflexivity.
Qed.

(** C5: for a response with a JSON body the fetch looks, in this order, for
    an error field (the provider's error is shown and nothing is returned),
    for either of the two throttling fields (a rate-limit error is shown and
    nothing is returned), for the series key (when absent, an error naming
    the symbol is shown and nothing is returned), and otherwise returns the
    object under the series key as it is; when the fetch returns nothing the
    page shows neither a table nor an export. *)
Theorem fetch_classifies_body
    (net : string -> http_response) (symbol : string) (body : gmap string json) :
  net symbol = JsonBody body ->
  (forall v, body !! "Error Message" = Some v ->
     fetch_intraday_data net symbol
     = ([Request symbol; StError (ApiError v)], Ok None))
  /\ (body !! "Error Message" = None -> is_Some (body !! "Note") ->
      fetch_intraday_data net symbol
      = ([Request symbol;
          StError (Plain "API call frequency limit reached. Please try again later.")],
         Ok None))
  /\ (body !! "Error Message" = None -> body !! "Note" = None ->
      is_Some (body !! "Information") ->
      fetch_intraday_data net symbol
      = ([Request symbol;
          StError (Plain
            "API rate limit exceeded. Please wait before making another request.")],
         Ok None))
  /\ (body !! "Error Message" = None -> body !! "Note" = None ->
      body !! "Information" = None -> body !! "Time Series (5min)" = None ->
      fetch_intraday_data net symbol
      = ([Request symbol;
          StError (Plain ("No intraday data found for symbol: " +:+ symbol
                          +:+ ". Please check if the symbol is valid."))],
         Ok None))
  /\ (forall series,
      body !! "Error Message" = None -> body !! "Note" = None ->
      body !! "Information" = None -> body !! "Time Series (5min)" = Some series ->
      fetch_intraday_data net symbol = ([Request symbol], Ok (Some series)))
  /\ (forall utcoffset now symbol_input ev,
      symbol = strip (upper symbol_input) ->
      outcome (fetch_intraday_data net symbol) = Ok None ->
      In ev (trace (main utcoffset net now symbol_input true)) ->
      (forall table, ev <> StDataframe table) /\ (forall csv, ev <> StDownload csv)).
Proof.
  intros Hnet.
  assert (Hkey : forall k, body !! k = None -> has_key k body = false).
  { intros k E. unfold has_key. rewrite E. apply bool_decide_eq_false.
    intros [x Hx]. discriminate. }
  assert (Hkey' : forall k, is_Some (body !! k) -> has_key k body = true).
  { intros k E. unfold has_key. apply bool_decide_eq_true. exact E. }
  split; [|split; [|split; [|split; [|split]]]].
  - intros v E. unfold fetch_intraday_data. rewrite Hnet, E. reflexivity.
  - intros E En. unfold fetch_intraday_data. rewrite Hnet, E, (Hkey' _ En). reflexivity.
  - intros E En Ei. unfold fetch_intraday_data.
    rewrite Hnet, E, (Hkey _ En), (Hkey' _ Ei). reflexivity.
  - intros E En Ei Es. unfold fetch_intraday_data, time_series_key.
    rewrite Hnet, E, (Hkey _ En), (Hkey _ Ei), Es. reflexivity.
  - intros series E En Ei Es. unfold fetch_intraday_data, time_series_key.
    rewrite Hnet, E, (Hkey _ En), (Hkey _ Ei), Es. reflexivity.
  - intros utcoffset now symbol_input ev Es Ho Hin. subst symbol.
    destruct (main_without_data _ _ _ _ _ Ho Hin) as [E|[m E]];
      split; intros x Hx; rewrite Hx in E; discriminate.
Qed.

Lemma fetch_classifies_body_witness :
  fetch_intraday_data Examples.failing_provider "AAPL"
  = ([Request "AAPL"; StError (ApiError (JText "Invalid API call."))], Ok None).
Proof.
  apply (proj1 (fetch_classifies_body Examples.failing_provider "AAPL"
                  Examples.error_body eq_refl)).
  vm_compute. reflexivity.
Defined.

(** C6: the rows are grouped by the calendar date, and compared by the
    clock time, of the wall clock of the zone at their instant, that is of
    the instant shifted by the zone's offset; the keys of the groups are
    the local dates of the rows.  A bar at 2024-01-02T14:00:00Z is at 09:00
    on 2024-01-02 in New York and falls into the Morning window of that
    date; a bar at 2024-01-03T01:00:00Z is reported under 2024-01-02, its
    Eastern date, and not under its UTC date. *)
Theorem grouped_by_eastern_date_and_time :
  (forall utcoffset df d rows,
     In (d, rows) (groupby_date utcoffset df) <->
     (exists r, In r df /\ (index r + utcoffset (index r)) / us_per_day = d)
     /\ rows = List.filter
                 (fun r => (index r + utcoffset (index r)) / us_per_day =? d) df)
  /\ (forall utcoffset df d s e r,
        In r (matching utcoffset df d s e) <->
        In r df /\ (index r + utcoffset (index r)) / us_per_day = d
        /\ s <= (index r + utcoffset (index r)) mod us_per_day <= e)
  /\ to_datetime "2024-01-02 14:00:00" = Some 1704204000000000
  /\ strftime_ymd (wall_clock USEastern.utcoffset 1704204000000000 / us_per_day)
     = "2024-01-02"
  /\ Some (wall_clock USEastern.utcoffset 1704204000000000 mod us_per_day)
     = to_time "09:00"
  /\ process_data_for_intervals USEastern.utcoffset Examples.bar_at_14_utc "AAPL" Examples.now
     = ([], Ok (Some [{| Date := "2024-01-02"; Day := "Tuesday";
                         cells := [("Morning (9:00-9:35 AM)", CNum (Fin (1050 # 100)));
                                   ("Mid-Morning (11:00-11:30 AM)", CStr "No Data");
                                   ("Market Close (3:30-4:00 PM)", CStr "No Data")] |}]))
  /\ process_data_for_intervals USEastern.utcoffset Examples.bar_after_midnight_utc
       "AAPL" Examples.now
     = ([], Ok (Some [{| Date := "2024-01-02"; Day := "Tuesday";
                         cells := [("Morning (9:00-9:35 AM)", CStr "No Data");
                                   ("Mid-Morning (11:00-11:30 AM)", CStr "No Data");
                                   ("Market Close (3:30-4:00 PM)", CStr "No Data")] |}])).
Proof.
  split.
  { intros utcoffset df d rows. unfold groupby_date. rewrite in_map_iff. split.
    - intros (d' & [= <- <-] & Hd). apply sorted_dates_In, in_map_iff in Hd.
      destruct Hd as (r & E & Hr). split; [|reflexivity]. exists r. split; assumption.
    - intros [(r & Hr & E) ->]. exists d. split; [reflexivity|].
      apply sorted_dates_In, in_map_iff. exists r. split; assumption. }
  split; [intros; apply matching_In|].
  repeat split; vm_compute; reflexivity.
Qed.



Import DecimalFacts CsvFacts Reference.

(** The rows of a returned table are rows with a date, its day name and
    three cells that are [NaN], a number of hundredths or [No Data]. *)
Lemma returned_table_rows (utcoffset : Z -> Z) (data : json) (symbol : string) (now : Z)
    (t : list event) (table : list result_row) :
  zone_ok utcoffset ->
  process_data_for_intervals utcoffset data symbol now = (t, Ok (Some table)) ->
  Forall table_row table.
Proof.
  intros Hz H.
  destruct (returned_rows _ _ _ _ _ _ Hz H) as (df & Hd & _ & _ & -> & Hr).
  apply List.Forall_forall. intros row Hrow.
  apply table_of_In in Hrow. destruct Hrow as (d & Hday & ->).
  apply trading_dates_In in Hday.
  rewrite List.Forall_forall in Hr. specialize (Hr d Hday).
  split.
  - exists d. repeat split; (lia || reflexivity).
  - unfold summary, interval_bounds. cbn [map fst snd cells].
    do 3 eexists. split; [reflexivity|].
    repeat split; apply cell_of_table_cell.
Qed.

(** C9, as stated, fails on two tables that the aggregation can return.
    A window whose rows have no price that parsed has the cell [NaN], which
    the export writes as an empty field, neither a number nor [No Data]: a
    bar at 11:00 Eastern on 2024-01-03 with four prices that are not numbers
    gives the line [2024-01-03,Wednesday,No Data,,No Data], and the page
    offers that export.  And the table of a Saturday alone has no row and no
    column: its export is an empty line, without the header.  Numbers are
    written with as few decimals as they need: 10.50 is written [10.5]. *)
Lemma export_cell_can_be_empty :
  exists table,
    process_data_for_intervals USEastern.utcoffset Examples.nothing_parsed "AAPL"
      Examples.now = ([], Ok (Some table))
    /\ table = [{| Date := "2024-01-03"; Day := "Wednesday";
                   cells := [("Morning (9:00-9:35 AM)", CStr "No Data");
                             ("Mid-Morning (11:00-11:30 AM)", CNum NaN);
                             ("Market Close (3:30-4:00 PM)", CStr "No Data")] |}]
    /\ chars (export_to_csv table "AAPL")
       = chars csv_header ++ newline ::
         chars "2024-01-03,Wednesday,No Data,,No Data" ++ [newline]
    /\ In (StDownload (export_to_csv table "AAPL"))
          (trace (main USEastern.utcoffset (Examples.provider Examples.nothing_parsed)
                    Examples.now "AAPL" true))
    /\ csv_cell (CNum NaN) = ""
    /\ ~ number_or_no_data ""
    /\ process_data_for_intervals USEastern.utcoffset Examples.saturday_only "AAPL"
         Examples.now = ([], Ok (Some []))
    /\ chars (export_to_csv [] "AAPL") = [newline]
    /\ csv_cell (CNum (Fin (1050 # 100))) = "10.5".
Proof.
  eexists. split; [vm_compute; reflexivity|].
  split; [reflexivity|].
  split; [vm_compute; reflexivity|].
  split; [vm_compute; repeat (first [left; reflexivity | right])|].
  split; [reflexivity|].
  split; [|split; [|split]; vm_compute; reflexivity].
  intros [[k Hk]|Hk]; [|discriminate].
  apply (cents_repr_nonempty k).
  apply of_chars_inj. simpl. symmetry. exact Hk.
Qed.

Lemma export_lines (table : list result_row) (body : list (list ascii)) :
  no_nan table -> Forall2 row_line table body -> Forall2 export_line table body.
Proof.
  intros Hn H. induction H as [|r line table body Hr Hrest IH]; [constructor|].
  inversion Hn as [|? ? Hr0 Hn']; subst.
  constructor; [|apply IH, Hn'].
  destruct Hr as (d & c1 & c2 & c3 & HDate & HDay & Hc & T1 & T2 & T3 & ->).
  rewrite Hc in Hr0.
  inversion Hr0 as [|? ? N1 Hr1]; subst. inversion Hr1 as [|? ? N2 Hr2]; subst.
  inversion Hr2 as [|? ? N3 _]; subst. simpl in N1, N2, N3.
  exists d, (csv_cell c1), (csv_cell c2), (csv_cell c3).
  rewrite <- HDate, <- HDay.
  repeat split; try assumption; try (apply table_cell_text; assumption).
Qed.

(** C9, as amended: the export of a table that the aggregation returned,
    that has a row and in which no cell is [NaN] is the fixed header
    followed by one line per row, with the date as [YYYY-MM-DD], the full
    name of its day, and for each window a number with at most two decimals
    or the text [No Data]; reading the export back gives the same dates, day
    names and cells. *)
Theorem export_round_trips
    (utcoffset : Z -> Z) (data : json) (symbol : string) (now : Z)
    (t : list event) (table : list result_row) :
  zone_ok utcoffset ->
  process_data_for_intervals utcoffset data symbol now = (t, Ok (Some table)) ->
  table <> [] ->
  no_nan table ->
  exists body,
    chars (export_to_csv table symbol)
    = chars csv_header ++ newline :: flat_map (fun l => l ++ [newline]) body
    /\ Forall2 export_line table body
    /\ read_csv (export_to_csv table symbol) = Some table.
Proof.
  intros Hz H Hne Hn. unfold export_to_csv.
  destruct (export_round_trip table Hne) as (body & E & F & R).
  { eapply returned_table_rows; eassumption. }
  exists body. split; [exact E|]. split; [|exact R].
  apply export_lines; assumption.
Qed.

Lemma export_round_trips_witness :
  let table :=
    [{| Date := "2024-01-03"; Day := "Wednesday";
        cells := [("Morning (9:00-9:35 AM)", CStr "No Data");
                  ("Mid-Morning (11:00-11:30 AM)", CNum (Fin (2012 # 100)));
                  ("Market Close (3:30-4:00 PM)", CStr "No Data")] |};
     {| Date := "2024-01-02"; Day := "Tuesday";
        cells := [("Morning (9:00-9:35 AM)", CNum (Fin (1050 # 100)));
                  ("Mid-Morning (11:00-11:30 AM)", CStr "No Data");
                  ("Market Close (3:30-4:00 PM)", CStr "No Data")] |};
     {| Date := "2023-12-29"; Day := "Friday";
        cells := [("Morning (9:00-9:35 AM)", CStr "No Data");
                  ("Mid-Morning (11:00-11:30 AM)", CStr "No Data");
                  ("Market Close (3:30-4:00 PM)", CNum (Fin (250 # 100)))] |}] in
  exists body,
    chars (export_to_csv table "AAPL")
    = chars csv_header ++ newline :: flat_map (fun l => l ++ [newline]) body
    /\ Forall2 export_line table body
    /\ read_csv (export_to_csv table "AAPL") = Some table.
Proof.
  intros table.
  apply (export_round_trips USEastern.utcoffset Examples.three_days "AAPL" Examples.now []).
  - exact us_eastern_ok.
  - vm_compute. reflexivity.
  - discriminate.
  - repeat constructor; discriminate.
Defined.




(** * The scenarios of the specification, evaluated *)

(** Scenario A: one bar at 09:10 local with open 10, high 12, low 9 and
    close 11 gives the Morning average 10.5 and no data elsewhere. *)
Example scenario_one_bar :
  process_data_for_intervals USEastern.utcoffset Examples.one_bar "AAPL" Examples.now
  = ([], Ok (Some [{| Date := "2024-01-02"; Day := "Tuesday";
                      cells := [("Morning (9:00-9:35 AM)", CNum (Fin (1050 # 100)));
                                ("Mid-Morning (11:00-11:30 AM)", CStr "No Data");
                                ("Market Close (3:30-4:00 PM)", CStr "No Data")] |}])).
Proof. vm_compute. reflexivity. Qed.

(** Scenario B: an error field in the body ends the calculation with the
    provider's message. *)
Example scenario_api_error :
  main USEastern.utcoffset Examples.failing_provider Examples.now "AAPL" true
  = ([Request "AAPL"; StError (ApiError (JText "Invalid API call."))], Ok tt).
Proof. vm_compute. reflexivity. Qed.

(** Scenario C: every row is older than the window. *)
Example scenario_old_rows :
  main USEastern.utcoffset (Examples.provider Examples.old_bar) Examples.now "AAPL" true
  = ([Request "AAPL";
      StWarning (Plain "No data available for the past 7 days.");
      StWarning (Plain
        "No trading data available for the specified symbol in the past 7 days.")],
     Ok tt).
Proof. vm_compute. reflexivity. Qed.

(** Three days out of order, one of them a Saturday: the page shows the
    table, the three summary figures and the export. *)
Example scenario_three_days :
  trace (main USEastern.utcoffset (Examples.provider Examples.three_days)
           Examples.now "aapl" true)
  = [Request "AAPL";
     StSuccess (Plain "Successfully calculated interval averages for AAPL");
     StDataframe
       [{| Date := "2024-01-03"; Day := "Wednesday";
           cells := [("Morning (9:00-9:35 AM)", CStr "No Data");
                     ("Mid-Morning (11:00-11:30 AM)", CStr "$20.12");
                     ("Market Close (3:30-4:00 PM)", CStr "No Data")] |};
        {| Date := "2024-01-02"; Day := "Tuesday";
           cells := [("Morning (9:00-9:35 AM)", CStr "$10.50");
                     ("Mid-Morning (11:00-11:30 AM)", CStr "No Data");
                     ("Market Close (3:30-4:00 PM)", CStr "No Data")] |};
        {| Date := "2023-12-29"; Day := "Friday";
           cells := [("Morning (9:00-9:35 AM)", CStr "No Data");
                     ("Mid-Morning (11:00-11:30 AM)", CStr "No Data");
                     ("Market Close (3:30-4:00 PM)", CStr "$2.50")] |}];
     StMetric "7-Day Morning Average" "$10.50";
     StMetric "7-Day Mid-Morning Average" "$20.12";
     StMetric "7-Day Market Close Average" "$2.50";
     StDownload (export_to_csv
       [{| Date := "2024-01-03"; Day := "Wednesday";
           cells := [("Morning (9:00-9:35 AM)", CStr "No Data");
                     ("Mid-Morning (11:00-11:30 AM)", CNum (Fin (2012 # 100)));
                     ("Market Close (3:30-4:00 PM)", CStr "No Data")] |};
        {| Date := "2024-01-02"; Day := "Tuesday";
           cells := [("Morning (9:00-9:35 AM)", CNum (Fin (1050 # 100)));
                     ("Mid-Morning (11:00-11:30 AM)", CStr "No Data");
                     ("Market Close (3:30-4:00 PM)", CStr "No Data")] |};
        {| Date := "2023-12-29"; Day := "Friday";
           cells := [("Morning (9:00-9:35 AM)", CStr "No Data");
                     ("Mid-Morning (11:00-11:30 AM)", CStr "No Data");
                     ("Market Close (3:30-4:00 PM)", CNum (Fin (250 # 100)))] |}]
       "AAPL")].
Proof. vm_compute. reflexivity. Qed.

(** Ties are rounded to the even hundredth. *)
Example round2_ties :
  round2 (Fin (20125 # 1000)) = Fin (2012 # 100)
  /\ round2 (Fin (20135 # 1000)) = Fin (2014 # 100)
  /\ round2 NaN = NaN.
Proof. repeat split. Qed.

(** * Further properties of the program *)

Import Further.

(** ** The fetch *)

(** X1: a fetch never raises; it writes the request first and then either
    returns a series and writes nothing more, or returns nothing and writes
    exactly one error message. *)
Theorem fetch_one_request_one_outcome (net : string -> http_response) (symbol : string) :
  (exists series,
     fetch_intraday_data net symbol = ([Request symbol], Ok (Some series)))
  \/ (exists msg,
        fetch_intraday_data net symbol = ([Request symbol; StError msg], Ok None)).
Proof.
  unfold fetch_intraday_data, try_except, mbind, M_bind, bind, emit, ret, raise.
  destruct (net symbol) as [e|e|e|body]; simpl;
    try (right; eexists; reflexivity).
  destruct (body !! "Error Message") as [v|]; simpl; [right; eexists; reflexivity|].
  destruct (has_key "Note" body); simpl; [right; eexists; reflexivity|].
  destruct (has_key "Information" body); simpl; [right; eexists; reflexivity|].
  destruct (body !! time_series_key) as [series|]; simpl.
  - left. eexists. reflexivity.
  - right. eexists. reflexivity.
Qed.

Lemma has_key_false (k : string) (body : gmap string json) :
  has_key k body = false <-> body !! k = None.
Proof.
  unfold has_key. rewrite bool_decide_eq_false. split.
  - intros H. destruct (body !! k) as [v|] eqn:E; [|reflexivity].
    exfalso. apply H. exists v. reflexivity.
  - intros -> [x Hx]. discriminate.
Qed.

(** X2: a fetch returns a series only from a JSON body that has neither the
    error field nor one of the two throttling fields, and then it returns
    the object under the series key; a body with one of these fields gives
    nothing even when it also holds a series. *)
Theorem fetch_returns_series_iff
    (net : string -> http_response) (symbol : string)
    (t : list event) (series : json) :
  fetch_intraday_data net symbol = (t, Ok (Some series)) <->
  t = [Request symbol] /\
  exists body, net symbol = JsonBody body
    /\ body !! "Error Message" = None /\ body !! "Note" = None
    /\ body !! "Information" = None
    /\ body !! "Time Series (5min)" = Some series.
Proof.
  split.
  - unfold fetch_intraday_data, try_except, mbind, M_bind, bind, emit, ret, raise.
    destruct (net symbol) as [e|e|e|body]; simpl; try discriminate.
    destruct (body !! "Error Message") as [v|] eqn:Ee; simpl; [discriminate|].
    destruct (has_key "Note" body) eqn:En; simpl; [discriminate|].
    destruct (has_key "Information" body) eqn:Ei; simpl; [discriminate|].
    destruct (body !! time_series_key) as [s|] eqn:Es; simpl; [|discriminate].
    intros [= <- <-]. split; [reflexivity|]. exists body.
    split; [reflexivity|]. split; [exact Ee|].
    split; [apply has_key_false, En|]. split; [apply has_key_false, Ei | exact Es].
  - intros [-> (body & Hn & Ee & En & Ei & Es)].
    unfold fetch_intraday_data, time_series_key.
    rewrite Hn, Ee, (proj2 (has_key_false _ _) En), (proj2 (has_key_false _ _) Ei), Es.
    reflexivity.
Qed.

(** X3: a request that fails in transport, and a response with a status
    that is not a success, end the fetch with the network error message
    built from the failure, and nothing is returned. *)
Theorem fetch_network_failure
    (net : string -> http_response) (symbol reason : string) :
  net symbol = ConnectionFailed reason \/ net symbol = BadStatus reason ->
  fetch_intraday_data net symbol
  = ([Request symbol; StError (Plain ("Network error occurred: " +:+ reason))], Ok None).
Proof.
  unfold fetch_intraday_data. intros [-> | ->]; reflexivity.
Qed.

Lemma fetch_network_failure_witness :
  fetch_intraday_data unreachable "AAPL"
  = ([Request "AAPL"; StError (Plain "Network error occurred: timed out")], Ok None).
Proof.
  apply (fetch_network_failure unreachable "AAPL" "timed out").
  left. reflexivity.
Defined.

(** ** The aggregation as a whole *)

Lemma sort_by_date_shape (results : list result_row) :
  (exists sorted, sort_by_date results = ([], Ok sorted))
  \/ sort_by_date results = ([], Raise (Exception "to_datetime")).
Proof.
  unfold sort_by_date. destruct results as [|r rs]; [left; eexists; reflexivity|].
  destruct (traverse_orelse (fun r => to_datetime_date (Date r))
              (fun k r => (k, r)) "to_datetime" (r :: rs))
    as [(cs & _ & Ht)|(_ & Ht)]; cbv zeta in Ht; rewrite Ht; run.
  - left. eexists. reflexivity.
  - right. reflexivity.
Qed.

(** The aggregation after the window, as the sort of the rows of the
    trading dates. *)
Lemma process_sorts_summaries (utcoffset : Z -> Z) (data : json) (symbol : string)
    (now : Z) (df : list PriceRow) :
  truthy data = true -> data_frame data = ([], Ok df) -> lookback now df <> [] ->
  process_data_for_intervals utcoffset data symbol now
  = bind (sort_by_date (map (summary utcoffset (lookback now df))
                            (trading_dates utcoffset (lookback now df))))
         (fun results_df => ret (Some results_df)).
Proof.
  intros Ht Hd Hl. unfold process_data_for_intervals. rewrite Ht, Hd. cbn [negb]. run.
  rewrite (match_nonempty (lookback now df)) by exact Hl.
  rewrite grouped_rows. run. rewrite omap_if. reflexivity.
Qed.

(** Every way in which the aggregation ends. *)
Lemma process_shape (utcoffset : Z -> Z) (data : json) (symbol : string) (now : Z) :
  (truthy data = false
   /\ process_data_for_intervals utcoffset data symbol now = ([], Ok None))
  \/ (exists e, truthy data = true /\ data_frame data = ([], Raise e)
        /\ process_data_for_intervals utcoffset data symbol now = ([], Raise e))
  \/ (exists df, truthy data = true /\ data_frame data = ([], Ok df)
        /\ lookback now df = []
        /\ process_data_for_intervals utcoffset data symbol now
           = ([StWarning (Plain "No data available for the past 7 days.")], Ok None))
  \/ (exists df, truthy data = true /\ data_frame data = ([], Ok df)
        /\ lookback now df <> []
        /\ ((exists table, process_data_for_intervals utcoffset data symbol now
                           = ([], Ok (Some table)))
            \/ process_data_for_intervals utcoffset data symbol now
               = ([], Raise (Exception "to_datetime")))).
Proof.
  destruct (truthy data) eqn:Ht.
  2: { left. split; [reflexivity|]. unfold process_data_for_intervals.
       rewrite Ht. reflexivity. }
  right. destruct (data_frame data) as [t0 [df|e]] eqn:Hd;
    pose proof (data_frame_spec _ _ _ Hd) as [-> _].
  2: { left. exists e. repeat split.
       unfold process_data_for_intervals. rewrite Ht, Hd. reflexivity. }
  right. destruct (lookback now df) as [|r0 rs] eqn:El.
  { left. exists df. repeat split; try assumption.
    unfold process_data_for_intervals. rewrite Ht, Hd. cbn [negb]. run.
    rewrite El. reflexivity. }
  right. exists df.
  assert (Hl : lookback now df <> []) by (rewrite El; discriminate).
  repeat split; try assumption.
  rewrite (process_sorts_summaries utcoffset data symbol now df Ht Hd Hl).
  destruct (sort_by_date_shape (map (summary utcoffset (lookback now df))
                                    (trading_dates utcoffset (lookback now df))))
    as [(sorted & E)|E]; rewrite E.
  - left. exists sorted. reflexivity.
  - right. reflexivity.
Qed.

(** X4: the aggregation never writes an error and writes at most one
    message, the warning of the empty window; it returns nothing without
    any message only for an empty input, and a table never comes with a
    message. *)
Theorem process_writes_at_most_one_warning
    (utcoffset : Z -> Z) (data : json) (symbol : string) (now : Z) :
  (process_data_for_intervals utcoffset data symbol now
   = ([StWarning (Plain "No data available for the past 7 days.")], Ok None)
   /\ exists df, truthy data = true /\ data_frame data = ([], Ok df)
                 /\ lookback now df = [])
  \/ (exists r, process_data_for_intervals utcoffset data symbol now = ([], r)
        /\ (r = Ok None -> truthy data = false)).
Proof.
  destruct (process_shape utcoffset data symbol now)
    as [[Ht E]|[(e & Ht & Hd & E)|[(df & Ht & Hd & Hl & E)|(df & Ht & Hd & Hl & E)]]].
  - right. eexists. split; [exact E|]. intros _. exact Ht.
  - right. eexists. split; [exact E|]. discriminate.
  - left. split; [exact E|]. exists df. repeat split; assumption.
  - right. destruct E as [[table E]|E]; eexists; (split; [exact E|]); discriminate.
Qed.

(** X5: when every retained row falls on a Saturday or a Sunday, the
    aggregation returns a table without rows (not the absence of a table)
    and writes nothing; the page then shows the request and the warning
    that no trading data is available, and no table. *)
Theorem weekend_only_gives_empty_table
    (utcoffset : Z -> Z) (net : string -> http_response) (now : Z)
    (symbol_input : string) (data : json) (df : list PriceRow) :
  let symbol := strip (upper symbol_input) in
  validate_symbol symbol = true ->
  fetch_intraday_data net symbol = ([Request symbol], Ok (Some data)) ->
  truthy data = true -> data_frame data = ([], Ok df) -> lookback now df <> [] ->
  (forall r, In r (lookback now df) -> 5 <= weekday (local_date utcoffset r)) ->
  process_data_for_intervals utcoffset data symbol now = ([], Ok (Some []))
  /\ main utcoffset net now symbol_input true
     = ([Request symbol;
         StWarning (Plain
           "No trading data available for the specified symbol in the past 7 days.")],
        Ok tt).
Proof.
  intros symbol Hv Hf Ht Hd Hl Hw.
  assert (Hp : process_data_for_intervals utcoffset data symbol now = ([], Ok (Some []))).
  { rewrite (process_sorts_summaries utcoffset data symbol now df Ht Hd Hl).
    assert (E : trading_dates utcoffset (lookback now df) = []).
    { destruct (trading_dates utcoffset (lookback now df)) as [|d ds] eqn:E;
        [reflexivity|].
      assert (Hin : In d (trading_dates utcoffset (lookback now df)))
        by (rewrite E; left; reflexivity).
      apply trading_dates_In in Hin. destruct Hin as [Hlt (r & Hr & <-)].
      specialize (Hw r Hr). lia. }
    rewrite E. reflexivity. }
  split; [exact Hp|].
  unfold main. fold symbol. rewrite Hv. cbn [negb].
  unfold mbind, M_bind, bind. rewrite Hf, Ht. fold symbol. rewrite Hp. reflexivity.
Qed.

Lemma weekend_only_gives_empty_table_witness :
  process_data_for_intervals USEastern.utcoffset Examples.saturday_only "AAPL" Examples.now
  = ([], Ok (Some []))
  /\ main USEastern.utcoffset (Examples.provider Examples.saturday_only) Examples.now
       "aapl" true
     = ([Request "AAPL";
         StWarning (Plain
           "No trading data available for the specified symbol in the past 7 days.")],
        Ok tt).
Proof.
  refine (weekend_only_gives_empty_table USEastern.utcoffset
            (Examples.provider Examples.saturday_only) Examples.now "aapl"
            Examples.saturday_only _ _ _ _ _ _ _).
  - reflexivity.
  - vm_compute. reflexivity.
  - reflexivity.
  - vm_compute. reflexivity.
  - vm_compute. discriminate.
  - intros r Hr. vm_compute in Hr. destruct Hr as [<-|[]]. vm_compute. discriminate.
Defined.

(** ** The page *)

(** The page after a fetch, for a symbol that passed the validation. *)
Lemma main_after_fetch (utcoffset : Z -> Z) (net : string -> http_response) (now : Z)
    (symbol_input : string) (fetched : list event) (raw : option json) :
  let symbol := strip (upper symbol_input) in
  validate_symbol symbol = true ->
  fetch_intraday_data net symbol = (fetched, Ok raw) ->
  main utcoffset net now symbol_input true
  = bind (fetched, Ok raw)
      (fun raw_data =>
         match raw_data with
         | Some data =>
             if truthy data then
               bind (process_data_for_intervals utcoffset data symbol now)
                 (fun results_df =>
                    match results_df with
                    | Some ((_ :: _) as df) =>
                        bind (emit (StSuccess (Plain
                                ("Successfully calculated interval averages for "
                                 +:+ symbol))))
                          (fun _ =>
                        bind (emit (StDataframe (display df))) (fun _ =>
                        bind (emit (summary_metric "7-Day Morning Average"
                                      "Morning (9:00-9:35 AM)" df)) (fun _ =>
                        bind (emit (summary_metric "7-Day Mid-Morning Average"
                                      "Mid-Morning (11:00-11:30 AM)" df)) (fun _ =>
                        bind (emit (summary_metric "7-Day Market Close Average"
                                      "Market Close (3:30-4:00 PM)" df)) (fun _ =>
                        emit (StDownload (export_to_csv df symbol)))))))
                    | _ =>
                        emit (StWarning (Plain
                          "No trading data available for the specified symbol in the past 7 days."))
                    end)
             else ret tt
         | None => ret tt
         end).
Proof.
  intros symbol Hv Hf. unfold main. fold symbol. rewrite Hv. cbn [negb].
  unfold mbind, M_bind. rewrite Hf. reflexivity.
Qed.

(** X6: a fetched object that counts as false, such as a series without
    any bar, ends the page without a word: nothing is shown after what the
    fetch wrote, neither a warning nor a table. *)
Theorem page_silent_on_empty_series
    (utcoffset : Z -> Z) (net : string -> http_response) (now : Z)
    (symbol_input : string) (fetched : list event) (data : json) :
  let symbol := strip (upper symbol_input) in
  validate_symbol symbol = true ->
  fetch_intraday_data net symbol = (fetched, Ok (Some data)) ->
  truthy data = false ->
  main utcoffset net now symbol_input true = (fetched, Ok tt).
Proof.
  intros symbol Hv Hf Ht.
  rewrite (main_after_fetch utcoffset net now symbol_input fetched (Some data) Hv Hf).
  unfold bind. rewrite Ht. simpl. rewrite app_nil_r. reflexivity.
Qed.

Lemma page_silent_on_empty_series_witness :
  main USEastern.utcoffset (Examples.provider (JSeries [])) Examples.now "AAPL" true
  = ([Request "AAPL"], Ok tt).
Proof.
  apply (page_silent_on_empty_series USEastern.utcoffset
           (Examples.provider (JSeries [])) Examples.now "AAPL" [Request "AAPL"]
           (JSeries [])).
  - reflexivity.
  - vm_compute. reflexivity.
  - reflexivity.
Defined.

(** X7: the page shows a table only at the end of a calculation that went
    through: the button was pressed, the symbol passed, the fetch returned
    a series without an error, and the aggregation returned a table with a
    row and wrote nothing.  The page is then the request, the message of
    success, the table in display form, the three summary figures and the
    export of the table as returned, in this order, and nothing else. *)
Theorem page_with_table
    (utcoffset : Z -> Z) (net : string -> http_response) (now : Z)
    (symbol_input : string) (calculate_clicked : bool) (shown : list result_row) :
  In (StDataframe shown) (trace (main utcoffset net now symbol_input calculate_clicked)) ->
  let symbol := strip (upper symbol_input) in
  exists data df,
    calculate_clicked = true /\ validate_symbol symbol = true
    /\ fetch_intraday_data net symbol = ([Request symbol], Ok (Some data))
    /\ process_data_for_intervals utcoffset data symbol now = ([], Ok (Some df))
    /\ df <> [] /\ shown = display df
    /\ main utcoffset net now symbol_input calculate_clicked
       = ([Request symbol;
           StSuccess (Plain ("Successfully calculated interval averages for " +:+ symbol));
           StDataframe (display df);
           summary_metric "7-Day Morning Average" "Morning (9:00-9:35 AM)" df;
           summary_metric "7-Day Mid-Morning Average" "Mid-Morning (11:00-11:30 AM)" df;
           summary_metric "7-Day Market Close Average" "Market Close (3:30-4:00 PM)" df;
           StDownload (export_to_csv df symbol)],
          Ok tt).
Proof.
  intros Hin symbol.
  destruct calculate_clicked.
  2: { unfold main in Hin. simpl in Hin. destruct Hin as [H|[]]. discriminate. }
  destruct (validate_symbol symbol) eqn:Hv.
  2: { unfold main in Hin. fold symbol in Hin. rewrite Hv in Hin. simpl in Hin.
       destruct Hin as [H|[]]. discriminate. }
  destruct (fetch_shape net symbol) as (errors & r & Hf & He & Hr).
  rewrite (main_after_fetch utcoffset net now symbol_input _ r Hv Hf) in Hin |- *.
  fold symbol in Hin |- *.
  destruct r as [data|].
  2: { exfalso. unfold bind in Hin. simpl in Hin. rewrite app_nil_r in Hin.
       destruct Hin as [H|Hin]; [discriminate|].
       rewrite List.Forall_forall in He. destruct (He _ Hin) as [m Hm]. discriminate. }
  destruct Hr as [Hr | ->]; [discriminate|].
  destruct (truthy data) eqn:Ht.
  2: { exfalso. unfold bind in Hin. rewrite Ht in Hin. simpl in Hin.
       destruct Hin as [H|[]]. discriminate. }
  unfold bind at 1 in Hin. unfold bind at 1. rewrite Ht in Hin |- *.
  destruct (process_shape utcoffset data symbol now)
    as [[Ht' _]|[(e & _ & _ & E)|[(df & _ & _ & _ & E)|(df & _ & _ & _ & [[table E]|E])]]];
    [congruence| | | |]; rewrite E in Hin |- *.
  - exfalso. simpl in Hin. destruct Hin as [H|[]]. discriminate.
  - exfalso. simpl in Hin. destruct Hin as [H|[H|[H|[]]]]; discriminate.
  - destruct table as [|r0 rs].
    + exfalso. simpl in Hin. destruct Hin as [H|[H|[]]]; discriminate.
    + simpl in Hin.
      destruct Hin as [H|[H|[H|[H|[H|[H|[H|[]]]]]]]]; try discriminate;
        try (unfold summary_metric in H; destruct (nanmean _); discriminate).
      injection H as <-.
      exists data, (r0 :: rs). repeat split; try assumption; try reflexivity.
      discriminate.
  - exfalso. simpl in Hin. destruct Hin as [H|[]]. discriminate.
Qed.

Lemma page_with_table_witness :
  exists data df,
    true = true /\ validate_symbol (strip (upper "aapl")) = true
    /\ fetch_intraday_data (Examples.provider Examples.one_bar) (strip (upper "aapl"))
       = ([Request (strip (upper "aapl"))], Ok (Some data))
    /\ process_data_for_intervals USEastern.utcoffset data (strip (upper "aapl"))
         Examples.now = ([], Ok (Some df))
    /\ df <> []
    /\ display [{| Date := "2024-01-02"; Day := "Tuesday";
                   cells := [("Morning (9:00-9:35 AM)", CNum (Fin (1050 # 100)));
                             ("Mid-Morning (11:00-11:30 AM)", CStr "No Data");
                             ("Market Close (3:30-4:00 PM)", CStr "No Data")] |}]
       = display df
    /\ main USEastern.utcoffset (Examples.provider Examples.one_bar) Examples.now
         "aapl" true
       = ([Request (strip (upper "aapl"));
           StSuccess (Plain ("Successfully calculated interval averages for "
                             +:+ strip (upper "aapl")));
           StDataframe (display df);
           summary_metric "7-Day Morning Average" "Morning (9:00-9:35 AM)" df;
           summary_metric "7-Day Mid-Morning Average" "Mid-Morning (11:00-11:30 AM)" df;
           summary_metric "7-Day Market Close Average" "Market Close (3:30-4:00 PM)" df;
           StDownload (export_to_csv df (strip (upper "aapl")))],
          Ok tt).
Proof.
  apply (page_with_table USEastern.utcoffset (Examples.provider Examples.one_bar)
           Examples.now "aapl" true).
  vm_compute. right. right. left. reflexivity.
Defined.

Lemma mapM_exists_none {A C} (g : A -> option C) (l : list A) :
  Exists (fun a => g a = None) l -> mapM g l = None.
Proof.
  induction 1 as [a l Ha|a l _ IH]; simpl.
  - rewrite Ha. reflexivity.
  - destruct (g a); simpl; [rewrite IH|]; reflexivity.
Qed.

(** X8: the aggregation has no handler of its own and the page has none
    around it: when one key of the series is not a timestamp that
    [pd.to_datetime] reads, the aggregation raises before it writes
    anything, and the page ends with that exception right after the
    request, with no message, table or export. *)
Theorem bad_timestamp_raises_through_page
    (utcoffset : Z -> Z) (net : string -> http_response) (now : Z)
    (symbol_input : string) (bars : list (string * RawBar)) :
  let symbol := strip (upper symbol_input) in
  validate_symbol symbol = true ->
  fetch_intraday_data net symbol = ([Request symbol], Ok (Some (JSeries bars))) ->
  Exists (fun kv => to_datetime (fst kv) = None) bars ->
  process_data_for_intervals utcoffset (JSeries bars) symbol now
  = ([], Raise (Exception "to_datetime"))
  /\ main utcoffset net now symbol_input true
     = ([Request symbol], Raise (Exception "to_datetime")).
Proof.
  intros symbol Hv Hf Hbad.
  assert (Ht : truthy (JSeries bars) = true)
    by (destruct bars; [inversion Hbad | reflexivity]).
  assert (Hd : data_frame (JSeries bars) = ([], Raise (Exception "to_datetime"))).
  { simpl.
    set (g := fun kv : string * RawBar => to_datetime (fst kv)).
    set (h := fun (t : Z) (kv : string * RawBar) =>
                {| index := t;
                   Open := to_numeric (raw_open (snd kv));
                   High := to_numeric (raw_high (snd kv));
                   Low := to_numeric (raw_low (snd kv));
                   Close := to_numeric (raw_close (snd kv));
                   Volume := raw_volume (snd kv) |}).
    rewrite (traverse_ext typed_row
               (fun a => c ← orelse (g a) "to_datetime"; ret (h c a)))
      by (intros [k b]; reflexivity).
    destruct (traverse_orelse g h "to_datetime" bars) as [(cs & Hm & _)|(_ & E)];
      [|exact E].
    rewrite (mapM_exists_none g bars Hbad) in Hm. discriminate. }
  assert (Hp : process_data_for_intervals utcoffset (JSeries bars) symbol now
               = ([], Raise (Exception "to_datetime"))).
  { unfold process_data_for_intervals. rewrite Ht, Hd. reflexivity. }
  split; [exact Hp|].
  rewrite (main_after_fetch utcoffset net now symbol_input _ _ Hv Hf).
  fold symbol. unfold bind at 1. rewrite Ht, Hp. reflexivity.
Qed.

Lemma bad_timestamp_raises_through_page_witness :
  process_data_for_intervals USEastern.utcoffset bad_key "AAPL" Examples.now
  = ([], Raise (Exception "to_datetime"))
  /\ main USEastern.utcoffset (Examples.provider bad_key) Examples.now "AAPL" true
     = ([Request "AAPL"], Raise (Exception "to_datetime")).
Proof.
  refine (bad_timestamp_raises_through_page USEastern.utcoffset
            (Examples.provider bad_key) Examples.now "AAPL" _ _ _ _).
  - reflexivity.
  - vm_compute. reflexivity.
  - right. left. reflexivity.
Defined.






(** ** Days and windows *)

(** X10: a trading date that has retained bars but none within any of the
    three windows still gets its row in the table, with [No Data] in the
    three cells. *)
Theorem day_outside_windows_keeps_row
    (utcoffset : Z -> Z) (data : json) (symbol : string) (now : Z)
    (t : list event) (table : list result_row) (df : list PriceRow) (d : Z) :
  zone_ok utcoffset ->
  process_data_for_intervals utcoffset data symbol now = (t, Ok (Some table)) ->
  data_frame data = ([], Ok df) ->
  trading_day utcoffset (lookback now df) d ->
  (forall r name s e,
     In r (lookback now df) -> local_date utcoffset r = d ->
     In (name, (s, e)) interval_bounds ->
     ~ s <= local_time utcoffset r <= e) ->
  In {| Date := strftime_ymd d; Day := day_name d;
        cells := [("Morning (9:00-9:35 AM)", CStr "No Data");
                  ("Mid-Morning (11:00-11:30 AM)", CStr "No Data");
                  ("Market Close (3:30-4:00 PM)", CStr "No Data")] |} table.
Proof.
  intros Hz H Hd Hday Hout.
  destruct (returned_rows _ _ _ _ _ _ Hz H) as (df' & Hd' & _ & _ & -> & _).
  assert (df' = df) as -> by congruence.
  apply table_of_In. exists d. split; [exact Hday|].
  assert (E : forall name s e, In (name, (s, e)) interval_bounds ->
                matching utcoffset (lookback now df) d s e = []).
  { intros name s e Hin.
    destruct (matching utcoffset (lookback now df) d s e) as [|r rs] eqn:Em;
      [reflexivity|].
    assert (Hr : In r (matching utcoffset (lookback now df) d s e))
      by (rewrite Em; left; reflexivity).
    apply matching_In in Hr. destruct Hr as (Hr & Hdate & Hw).
    exfalso. exact (Hout r name s e Hr Hdate Hin Hw). }
  unfold summary, interval_bounds in *. cbn [map fst snd].
  rewrite (E "Morning (9:00-9:35 AM)" 32400000000 34500000000)
    by (left; reflexivity).
  rewrite (E "Mid-Morning (11:00-11:30 AM)" 39600000000 41400000000)
    by (right; left; reflexivity).
  rewrite (E "Market Close (3:30-4:00 PM)" 55800000000 57600000000)
    by (right; right; left; reflexivity).
  reflexivity.
Qed.

Lemma day_outside_windows_keeps_row_witness :
  In {| Date := strftime_ymd 19724; Day := day_name 19724;
        cells := [("Morning (9:00-9:35 AM)", CStr "No Data");
                  ("Mid-Morning (11:00-11:30 AM)", CStr "No Data");
                  ("Market Close (3:30-4:00 PM)", CStr "No Data")] |}
     [{| Date := "2024-01-02"; Day := "Tuesday";
         cells := [("Morning (9:00-9:35 AM)", CStr "No Data");
                   ("Mid-Morning (11:00-11:30 AM)", CStr "No Data");
                   ("Market Close (3:30-4:00 PM)", CStr "No Data")] |}].
Proof.
  refine (day_outside_windows_keeps_row USEastern.utcoffset
            Examples.bar_after_midnight_utc "AAPL" Examples.now [] _ _ 19724
            us_eastern_ok _ _ _ _).
  - vm_compute. reflexivity.
  - vm_compute. reflexivity.
  - split; [vm_compute; reflexivity|].
    eexists. split; [left; reflexivity | vm_compute; reflexivity].
  - intros r name s e Hr _ Hin. vm_compute in Hr. destruct Hr as [<-|[]].
    unfold interval_bounds in Hin.
    destruct Hin as [[= <- <- <-]|[[= <- <- <-]|[[= <- <- <-]|[]]]];
      vm_compute; intros [H1 H2]; first [apply H1; reflexivity | apply H2; reflexivity].
Defined.

(** X11: the three windows do not overlap: no bar of a day is selected by
    [between_time] for two of the intervals, so no bar is counted in two
    cells. *)
Theorem no_bar_in_two_windows
    (utcoffset : Z -> Z) (day_data : list PriceRow)
    (i j : string * (string * string)) (rows_i rows_j : list PriceRow) (r : PriceRow) :
  In i intervals -> In j intervals -> i <> j ->
  between_time utcoffset day_data (fst (snd i)) (snd (snd i)) = ([], Ok rows_i) ->
  between_time utcoffset day_data (fst (snd j)) (snd (snd j)) = ([], Ok rows_j) ->
  In r rows_i -> ~ In r rows_j.
Proof.
  unfold intervals.
  intros [<-|[<-|[<-|[]]]] [<-|[<-|[<-|[]]]] Hne; cbn [fst snd]; try congruence;
    intros Hi Hj Ri Rj;
    repeat match goal with
           | H : between_time _ _ ?a ?b = _ |- _ =>
               let s := eval vm_compute in (to_time a) in
               let e := eval vm_compute in (to_time b) in
               match s with
               | Some ?sv =>
                   match e with
                   | Some ?ev =>
                       rewrite (between_time_window utcoffset day_data a b sv ev)
                         in H by (reflexivity || lia);
                       injection H as <-
                   end
               end
           end;
    apply filter_In in Ri, Rj;
    destruct Ri as [_ Ri], Rj as [_ Rj];
    apply andb_true_iff in Ri, Rj; rewrite !Z.leb_le in Ri, Rj; lia.
Qed.

Lemma no_bar_in_two_windows_witness :
  exists (r : PriceRow) (rows_i rows_j : list PriceRow),
    r = {| index := 1704204600000000; Open := Fin 10; High := Fin 12;
           Low := Fin 9; Close := Fin 11; Volume := "100" |}
    /\ between_time USEastern.utcoffset [r] "09:00" "09:35" = ([], Ok rows_i)
    /\ between_time USEastern.utcoffset [r] "11:00" "11:30" = ([], Ok rows_j)
    /\ In r rows_i /\ ~ In r rows_j.
Proof.
  eexists. exists [{| index := 1704204600000000; Open := Fin 10; High := Fin 12;
                      Low := Fin 9; Close := Fin 11; Volume := "100" |}], [].
  split; [reflexivity|].
  split; [vm_compute; reflexivity|]. split; [vm_compute; reflexivity|].
  split; [left; reflexivity|].
  refine (no_bar_in_two_windows USEastern.utcoffset
            [{| index := 1704204600000000; Open := Fin 10; High := Fin 12;
                Low := Fin 9; Close := Fin 11; Volume := "100" |}]
            ("Morning (9:00-9:35 AM)", ("09:00", "09:35"))
            ("Mid-Morning (11:00-11:30 AM)", ("11:00", "11:30"))
            [{| index := 1704204600000000; Open := Fin 10; High := Fin 12;
                Low := Fin 9; Close := Fin 11; Volume := "100" |}] []
            {| index := 1704204600000000; Open := Fin 10; High := Fin 12;
               Low := Fin 9; Close := Fin 11; Volume := "100" |}
            _ _ _ _ _ _).
  - left. reflexivity.
  - right. left. reflexivity.
  - discriminate.
  - vm_compute. reflexivity.
  - vm_compute. reflexivity.
  - left. reflexivity.
Defined.

(** ** The sort of the table *)

Lemma StronglySorted_map {A B} (R : A -> A -> Prop) (R' : B -> B -> Prop)
    (f : A -> B) (l : list A) :
  (forall a b, R a b -> R' (f a) (f b)) ->
  StronglySorted R l -> StronglySorted R' (map f l).
Proof.
  intros Hf. induction 1 as [|a l Hs IH Hall]; simpl; constructor; [exact IH|].
  apply List.Forall_forall. intros y Hy. apply in_map_iff in Hy.
  destruct Hy as (b & <- & Hb). apply Hf.
  rewrite List.Forall_forall in Hall. apply Hall, Hb.
Qed.

Lemma keyed_rows (results : list result_row) (days : list Z) :
  Forall2 (fun r d => Date r = strftime_ymd d /\ -200000 <= d <= 200000
                      /\ in_bounds (d * us_per_day) = true) results days ->
  exists cs, mapM (fun r => to_datetime_date (Date r)) results = Some cs
    /\ Forall keyed_by_date (zip_with (fun k r => (k, r)) cs results)
    /\ map snd (zip_with (fun (k : Z) (r : result_row) => (k, r)) cs results) = results.
Proof.
  induction 1 as [|r d results days (HD & Hr & Hb) Hrest (cs & Hm & Hk & Hs)].
  - exists []. repeat split; constructor.
  - exists (d * us_per_day :: cs). simpl.
    rewrite HD, (to_datetime_date_bounds d Hr Hb). simpl. rewrite Hm. simpl.
    split; [reflexivity|]. split; [|now rewrite Hs].
    constructor; [|exact Hk]. exists d. repeat split; (lia || assumption).
Qed.

Lemma rebuild_keyed (kr : Z * result_row) :
  keyed_by_date kr ->
  {| Date := strftime_ymd (fst kr / us_per_day); Day := Day (snd kr);
     cells := cells (snd kr) |} = snd kr
  /\ row_date (snd kr) = Some (fst kr / us_per_day).
Proof.
  intros (d & Hd & Hk & HD). rewrite Hk.
  rewrite Z.div_mul by (unfold us_per_day, us_per_second; lia).
  split.
  - rewrite <- HD. destruct (snd kr). reflexivity.
  - unfold row_date. rewrite HD. apply parse_strftime, Hd.
Qed.

(** X12: lines 135 to 139 sort any list of rows whose dates are texts of
    dates, in whatever order they come: the result holds the same rows,
    each unchanged by the conversion of its date to a timestamp and back,
    and their dates never increase from one row to the next. *)
Theorem sort_by_date_sorts (results : list result_row) (days : list Z) :
  Forall2 (fun r d => Date r = strftime_ymd d /\ -200000 <= d <= 200000
                      /\ in_bounds (d * us_per_day) = true) results days ->
  exists sorted,
    sort_by_date results = ([], Ok sorted)
    /\ Permutation sorted results
    /\ exists ds, map row_date sorted = map Some ds /\ StronglySorted Z.ge ds.
Proof.
  intros H. destruct (keyed_rows results days H) as (cs & Hm & Hk & Hs).
  unfold sort_by_date. destruct results as [|r0 rs] eqn:Er.
  { exists []. repeat split; [constructor|]. exists []. split; constructor. }
  rewrite <- Er in *. clear Er r0 rs.
  destruct (traverse_orelse (fun r => to_datetime_date (Date r))
              (fun k r => (k, r)) "to_datetime" results)
    as [(cs' & Hm' & Ht)|(Hm' & _)]; [|congruence].
  assert (cs' = cs) as -> by congruence.
  cbv zeta in Ht. rewrite Ht. run.
  set (keyed := zip_with (fun (k : Z) (r : result_row) => (k, r)) cs results) in *.
  pose proof (sort_values_desc_Permutation keyed) as Hp.
  assert (Hk' : Forall keyed_by_date (sort_values_desc keyed)).
  { apply List.Forall_forall. intros kr Hin. rewrite List.Forall_forall in Hk.
    apply Hk. eapply Permutation_in; [exact Hp | exact Hin]. }
  assert (E : map (fun kr : Z * result_row =>
                     {| Date := strftime_ymd (fst kr / us_per_day);
                        Day := Day (snd kr); cells := cells (snd kr) |})
                  (sort_values_desc keyed) = map snd (sort_values_desc keyed)).
  { apply map_ext_in. intros kr Hin. rewrite List.Forall_forall in Hk'.
    apply rebuild_keyed, Hk', Hin. }
  exists (map snd (sort_values_desc keyed)).
  split; [unfold ret; rewrite E; reflexivity|].
  split; [rewrite <- Hs; apply Permutation_map, Hp|].
  exists (map (fun kr => fst kr / us_per_day) (sort_values_desc keyed)).
  split.
  - rewrite !map_map. apply map_ext_in. intros kr Hin.
    rewrite List.Forall_forall in Hk'. apply rebuild_keyed, Hk', Hin.
  - apply (StronglySorted_map key_ge); [|apply sort_values_desc_sorted].
    intros a b Hab. unfold key_ge in Hab. apply Z.le_ge.
    apply Z.div_le_mono; [unfold us_per_day, us_per_second|]; lia.
Qed.

Lemma sort_by_date_sorts_witness :
  exists sorted,
    sort_by_date [{| Date := "2024-01-02"; Day := "Tuesday"; cells := [] |};
                  {| Date := "2024-01-04"; Day := "Thursday"; cells := [] |};
                  {| Date := "2023-12-29"; Day := "Friday"; cells := [] |}]
    = ([], Ok sorted)
    /\ Permutation sorted
         [{| Date := "2024-01-02"; Day := "Tuesday"; cells := [] |};
          {| Date := "2024-01-04"; Day := "Thursday"; cells := [] |};
          {| Date := "2023-12-29"; Day := "Friday"; cells := [] |}]
    /\ exists ds, map row_date sorted = map Some ds /\ StronglySorted Z.ge ds.
Proof.
  apply (sort_by_date_sorts _ [19724; 19726; 19720]).
  repeat constructor; vm_compute; congruence.
Defined.

(** ** The summary statistics *)




Lemma two_rows_table : Forall Spec.table_row two_rows.
Proof.
  repeat constructor.
  - exists 19725. repeat split; (lia || (vm_compute; reflexivity)).
  - do 3 eexists. split; [reflexivity|]. repeat split; constructor.
  - exists 19724. repeat split; (lia || (vm_compute; reflexivity)).
  - do 3 eexists. split; [reflexivity|]. repeat split; constructor.
Qed.


(** ** The table on the page *)

(** The text of a number with two decimals reads back as the number rounded
    to hundredths. *)
Lemma to_numeric_format_2f (q : Q) :
  exists q', to_numeric (format_2f q) = Fin q'
             /\ (q' * 100 == inject_Z (rint (q * 100)))%Q.
Proof.
  unfold format_2f. cbv zeta. set (k := rint (q * 100)).
  set (a := Z.abs k). set (m := a / 100). set (fr := a mod 100).
  assert (Ha : 0 <= a) by (subst a; lia).
  assert (Hm : 0 <= m) by (subst m; Z.div_mod_to_equations; lia).
  assert (Hfr : 0 <= fr <= 99) by (subst fr; Z.div_mod_to_equations; lia).
  assert (Eam : a = 100 * m + fr) by (subst m fr; Z.div_mod_to_equations; lia).
  assert (Hf : digits_val m (pad2 fr) = Some a).
  { unfold pad2. simpl. rewrite !digit_val_chr by (Z.div_mod_to_equations; lia).
    f_equal. Z.div_mod_to_equations; lia. }
  assert (Hne : pad2 fr <> []) by discriminate.
  pose proof (unsigned_decimal_point m (pad2 fr) a Hm Hne Hf) as Hu.
  change (Z.to_pos (10 ^ Z.of_nat (length (pad2 fr)))) with 100%positive in Hu.
  destruct (Z.ltb_spec k 0) as [Hk|Hk].
  - cbn [app]. unfold to_numeric. rewrite chars_of_chars. cbn iota. rewrite Hu.
    eexists. split; [reflexivity|].
    unfold Qeq, Qmult, Qopp, inject_Z. simpl. subst a. lia.
  - cbn [app].
    destruct (nat_repr m) as [|c r] eqn:En; [exfalso; eapply nat_repr_nonempty, En|].
    pose proof (nat_repr_digits m Hm) as Hd. rewrite En in Hd.
    inversion Hd as [|? ? Hc _]; subst.
    cbn [app]. rewrite (to_numeric_unsigned c _ Hc).
    change (c :: r ++ "."%char :: pad2 fr) with ((c :: r) ++ "."%char :: pad2 fr).
    rewrite Hu. eexists. split; [reflexivity|].
    unfold Qeq, Qmult, inject_Z. simpl. subst a. lia.
Qed.

Lemma table_cell_shown (name : string) (c : cell) :
  is_summary_column name = true -> table_cell c ->
  shown_as (name, c) (name, format_price c).
Proof.
  intros _ Hc. split; [reflexivity|]. destruct Hc; simpl; try reflexivity.
  destruct (to_numeric_format_2f (k # 100)) as (q' & E & Hq).
  exists (format_2f (k # 100)). split; [reflexivity|]. rewrite E. simpl.
  rewrite rint_hundredths in Hq.
  revert Hq. unfold Qeq, Qmult, inject_Z. simpl. lia.
Qed.

(** X14: lines 196 to 208 on a table of the aggregation: the table on the
    page has the rows of the table in the same order, with the same date,
    day and columns; a cell that reads No Data stays as it is, and a price
    is shown as a dollar sign before a text with two decimals that reads
    back as the very price of the table, so that the display rounds nothing
    away. *)
Theorem display_loses_nothing (df : list result_row) :
  Forall table_row df ->
  Forall2 (fun r s => Date s = Date r /\ Day s = Day r
                      /\ Forall2 shown_as (cells r) (cells s))
          df (display df).
Proof.
  induction 1 as [|r df Hr _ IH]; [constructor|].
  unfold display. simpl map. constructor; [|exact IH].
  destruct Hr as (_ & c1 & c2 & c3 & Hcells & H1 & H2 & H3).
  simpl. split; [reflexivity|]. split; [reflexivity|].
  rewrite Hcells. simpl map.
  change (is_summary_column "Morning (9:00-9:35 AM)") with true.
  change (is_summary_column "Mid-Morning (11:00-11:30 AM)") with true.
  change (is_summary_column "Market Close (3:30-4:00 PM)") with true.
  cbv iota. simpl fst. simpl snd.
  repeat constructor; simpl; try reflexivity;
    match goal with
    | |- match ?c with _ => _ end =>
        apply (proj2 (table_cell_shown "Morning (9:00-9:35 AM)" c eq_refl ltac:(assumption)))
    end.
Qed.

Lemma display_loses_nothing_witness :
  Forall2 (fun r s => Date s = Date r /\ Day s = Day r
                      /\ Forall2 shown_as (cells r) (cells s))
          two_rows (display two_rows).
Proof. exact (display_loses_nothing two_rows two_rows_table). Defined.

(** ** The size of an interval's value *)










(** ** What the table does not depend on *)

Lemma data_frame_typed (bars : list (string * RawBar)) :
  data_frame (JSeries bars)
  = match mapM typed bars with
    | Some df => ret df
    | None => raise (Exception "to_datetime")
    end.
Proof.
  unfold data_frame. induction bars as [|[key bar] bars IH]; [reflexivity|].
  cbn [traverse]. rewrite IH. unfold typed_row. cbn [mapM].
  destruct (to_datetime key) as [t|] eqn:Ek.
  - assert (Et : typed (key, bar)
                 = Some {| index := t;
                           Open := to_numeric (raw_open bar);
                           High := to_numeric (raw_high bar);
                           Low := to_numeric (raw_low bar);
                           Close := to_numeric (raw_close bar);
                           Volume := raw_volume bar |})
      by (unfold typed; cbn [fst snd]; rewrite Ek; reflexivity).
    rewrite Et. cbn [orelse]. run. simpl.
    destruct (mapM typed bars); [run|]; reflexivity.
  - assert (Et : typed (key, bar) = None)
      by (unfold typed; cbn [fst]; rewrite Ek; reflexivity).
    rewrite Et. reflexivity.
Qed.

(** The aggregation once the frame is built and holds a row of the last
    ten days. *)
Lemma process_after_frame (utcoffset : Z -> Z) (data : json) (symbol : string)
    (now : Z) (df : list PriceRow) :
  truthy data = true -> data_frame data = ([], Ok df) -> lookback now df <> [] ->
  process_data_for_intervals utcoffset data symbol now
  = bind (sort_by_date (map (summary utcoffset (lookback now df))
                            (trading_dates utcoffset (lookback now df))))
         (fun results_df => ret (Some results_df)).
Proof.
  intros Ht Hd Hl. unfold process_data_for_intervals. rewrite Ht, Hd. cbn [negb]. run.
  rewrite (match_nonempty (lookback now df)) by exact Hl.
  rewrite grouped_rows. run. rewrite omap_if. reflexivity.
Qed.

(** The aggregation as a function of the frame. *)
Lemma process_of_frame (utcoffset : Z -> Z) (bars : list (string * RawBar))
    (symbol : string) (now : Z) :
  process_data_for_intervals utcoffset (JSeries bars) symbol now
  = match bars with
    | [] => ret None
    | _ =>
        match mapM typed bars with
        | None => raise (Exception "to_datetime")
        | Some df =>
            match lookback now df with
            | [] => ([StWarning (Plain "No data available for the past 7 days.")],
                     Ok None)
            | rows =>
                bind (sort_by_date (map (summary utcoffset rows)
                                        (trading_dates utcoffset rows)))
                     (fun results_df => ret (Some results_df))
            end
        end
    end.
Proof.
  destruct bars as [|b bars]; [reflexivity|].
  pose proof (data_frame_typed (b :: bars)) as Hd.
  destruct (mapM typed (b :: bars)) as [df|].
  - destruct (lookback now df) as [|r0 rs] eqn:El.
    + unfold process_data_for_intervals. rewrite Hd. cbn [truthy negb]. run.
      rewrite El. reflexivity.
    + rewrite <- El.
      apply process_after_frame; [reflexivity | exact Hd | rewrite El; discriminate].
  - unfold process_data_for_intervals. rewrite Hd. reflexivity.
Qed.












Lemma filter_map_commute {A} (f : A -> bool) (g : A -> A) (l : list A) :
  (forall x, f (g x) = f x) -> List.filter f (map g l) = map g (List.filter f l).
Proof.
  intros H. induction l as [|x l IH]; simpl; [reflexivity|].
  rewrite H, IH. destruct (f x); reflexivity.
Qed.

(** The rows of the table see the prices and the instants of the frame and
    not its volumes. *)
Lemma rows_set_volume (utcoffset : Z -> Z) (v : string) (rows : list PriceRow) :
  map (summary utcoffset (map (set_volume v) rows))
      (trading_dates utcoffset (map (set_volume v) rows))
  = map (summary utcoffset rows) (trading_dates utcoffset rows).
Proof.
  assert (E : trading_dates utcoffset (map (set_volume v) rows)
              = trading_dates utcoffset rows).
  { unfold trading_dates. rewrite map_map. reflexivity. }
  rewrite E. apply map_ext. intros d. unfold summary. f_equal.
  apply map_ext. intros iv. f_equal. unfold matching.
  rewrite !filter_map_commute by reflexivity.
  unfold cell_of, mean_of_means, price_columns. cbn [map]. rewrite !map_map.
  cbn [set_volume Open High Low Close].
  destruct (List.filter _ (List.filter _ rows)); reflexivity.
Qed.

Lemma typed_key (key : string) (bar : RawBar) :
  typed (key, bar)
  = match to_datetime key with
    | Some t => Some {| index := t;
                        Open := to_numeric (raw_open bar);
                        High := to_numeric (raw_high bar);
                        Low := to_numeric (raw_low bar);
                        Close := to_numeric (raw_close bar);
                        Volume := raw_volume bar |}
    | None => None
    end.
Proof. unfold typed. cbn [fst snd]. destruct (to_datetime key); reflexivity. Qed.

Lemma typed_frame_set_volume (v : string) (vol : string * RawBar -> string)
    (bars : list (string * RawBar)) :
  fmap (map (set_volume v))
       (mapM typed (map (fun kb => (fst kb, with_volume (vol kb) (snd kb))) bars))
  = fmap (map (set_volume v)) (mapM typed bars).
Proof.
  induction bars as [|[key bar] bars IH]; [reflexivity|].
  cbn [map mapM fst snd].
  rewrite (typed_key key bar), (typed_key key (with_volume _ bar)).
  destruct (to_datetime key) as [t|]; [|reflexivity].
  destruct (mapM typed (map _ bars)) as [df'|], (mapM typed bars) as [df|];
    simpl in IH |- *; try discriminate; [|reflexivity].
  injection IH as IH. rewrite IH. reflexivity.
Qed.

(** X17: the volume of a bar plays no part: with any other text in the
    place of each volume, a number or not, the aggregation has the same
    outcome. *)
Theorem volume_is_ignored
    (utcoffset : Z -> Z) (vol : string * RawBar -> string)
    (bars : list (string * RawBar)) (symbol : string) (now : Z) :
  process_data_for_intervals utcoffset
    (JSeries (map (fun kb => (fst kb, with_volume (vol kb) (snd kb))) bars))
    symbol now
  = process_data_for_intervals utcoffset (JSeries bars) symbol now.
Proof.
  rewrite !process_of_frame.
  destruct bars as [|b bs]; [reflexivity|].
  pose proof (typed_frame_set_volume "" vol (b :: bs)) as E.
  cbn [map] in E |- *.
  set (o' := mapM typed (_ :: map _ bs)) in *.
  set (o := mapM typed (b :: bs)) in *.
  assert (G : forall df : list PriceRow,
            match lookback now df with
            | [] => ([StWarning (Plain "No data available for the past 7 days.")],
                     Ok None)
            | r :: rs =>
                bind (sort_by_date (map (summary utcoffset (r :: rs))
                                        (trading_dates utcoffset (r :: rs))))
                     (fun results_df => ret (Some results_df))
            end
            = match lookback now (map (set_volume "") df) with
              | [] => ([StWarning (Plain "No data available for the past 7 days.")],
                       Ok None)
              | r :: rs =>
                  bind (sort_by_date (map (summary utcoffset (r :: rs))
                                          (trading_dates utcoffset (r :: rs))))
                       (fun results_df : list result_row => ret (Some results_df))
              end :> M (option (list result_row))).
  { intros df. unfold lookback. cbv zeta.
    rewrite filter_map_commute by reflexivity.
    destruct (List.filter _ df) as [|r rs] eqn:El; [reflexivity|].
    rewrite <- (rows_set_volume utcoffset "" (r :: rs)). reflexivity. }
  destruct o' as [df'|], o as [df|]; simpl in E; try discriminate; [|reflexivity].
  injection E as E. cbv zeta. rewrite (G df'), (G df), E. reflexivity.
Qed.

(** ** The download *)

(** A table or a download on the page comes with the whole page of a
    calculation that went through. *)
Lemma page_shape
    (utcoffset : Z -> Z) (net : string -> http_response) (now : Z)
    (symbol_input : string) (calculate_clicked : bool) (ev : event) :
  In ev (trace (main utcoffset net now symbol_input calculate_clicked)) ->
  (exists shown, ev = StDataframe shown) \/ (exists content, ev = StDownload content) ->
  let symbol := strip (upper symbol_input) in
  exists data df,
    process_data_for_intervals utcoffset data symbol now = ([], Ok (Some df))
    /\ df <> []
    /\ main utcoffset net now symbol_input calculate_clicked
       = ([Request symbol;
           StSuccess (Plain ("Successfully calculated interval averages for " +:+ symbol));
           StDataframe (display df);
           summary_metric "7-Day Morning Average" "Morning (9:00-9:35 AM)" df;
           summary_metric "7-Day Mid-Morning Average" "Mid-Morning (11:00-11:30 AM)" df;
           summary_metric "7-Day Market Close Average" "Market Close (3:30-4:00 PM)" df;
           StDownload (export_to_csv df symbol)],
          Ok tt).
Proof.
  intros Hin Hev symbol.
  assert (Hno : forall ev', ev' = ev ->
            match ev' with StDataframe _ | StDownload _ => True | _ => False end).
  { intros ev' ->. destruct Hev as [[x ->]|[x ->]]; exact I. }
  destruct calculate_clicked.
  2: { unfold main in Hin. simpl in Hin. destruct Hin as [H|[]]. destruct (Hno _ H). }
  destruct (validate_symbol symbol) eqn:Hv.
  2: { unfold main in Hin. fold symbol in Hin. rewrite Hv in Hin. simpl in Hin.
       destruct Hin as [H|[]]. destruct (Hno _ H). }
  destruct (fetch_shape net symbol) as (errors & r & Hf & He & Hr).
  rewrite (main_after_fetch utcoffset net now symbol_input _ r Hv Hf) in Hin |- *.
  fold symbol in Hin |- *.
  destruct r as [data|].
  2: { exfalso. unfold bind in Hin. simpl in Hin. rewrite app_nil_r in Hin.
       destruct Hin as [H|Hin]; [destruct (Hno _ H)|].
       rewrite List.Forall_forall in He. destruct (He _ Hin) as [m Hm].
       apply (Hno _ (eq_sym Hm)). }
  destruct Hr as [Hr | ->]; [discriminate|].
  destruct (truthy data) eqn:Ht.
  2: { exfalso. unfold bind in Hin. rewrite Ht in Hin. simpl in Hin.
       destruct Hin as [H|[]]. destruct (Hno _ H). }
  unfold bind at 1 in Hin. unfold bind at 1. rewrite Ht in Hin |- *.
  destruct (process_shape utcoffset data symbol now)
    as [[Ht' _]|[(e & _ & _ & E)|[(df & _ & _ & _ & E)|(df & _ & _ & _ & [[table E]|E])]]];
    [congruence| | | |]; rewrite E in Hin |- *.
  - exfalso. simpl in Hin. destruct Hin as [H|[]]. destruct (Hno _ H).
  - exfalso. simpl in Hin. destruct Hin as [H|[H|[H|[]]]]; destruct (Hno _ H).
  - destruct table as [|r0 rs].
    + exfalso. simpl in Hin. destruct Hin as [H|[H|[]]]; destruct (Hno _ H).
    + exists data, (r0 :: rs). split; [exact E|]. split; [discriminate|].
      reflexivity.
  - exfalso. simpl in Hin. destruct Hin as [H|[]]. destruct (Hno _ H).
Qed.

(** X18: what the page offers for download is the table that it shows: a
    download on the page reads back as a table with at least one row, with
    cells that are missing numbers included, and the table on the page is
    the display form of that very table. *)
Theorem download_reads_back_as_shown
    (utcoffset : Z -> Z) (net : string -> http_response) (now : Z)
    (symbol_input : string) (calculate_clicked : bool) (content : string) :
  zone_ok utcoffset ->
  In (StDownload content)
     (trace (main utcoffset net now symbol_input calculate_clicked)) ->
  exists table,
    read_csv content = Some table /\ table <> []
    /\ In (StDataframe (display table))
          (trace (main utcoffset net now symbol_input calculate_clicked)).
Proof.
  intros Hz Hin.
  destruct (page_shape utcoffset net now symbol_input calculate_clicked _ Hin)
    as (data & df & Hp & Hne & Hm); [right; eexists; reflexivity|].
  rewrite Hm in Hin |- *. simpl in Hin.
  destruct Hin as [H|[H|[H|[H|[H|[H|[H|[]]]]]]]]; try discriminate;
    try (unfold summary_metric in H; destruct (nanmean _); discriminate).
  injection H as <-. exists df.
  destruct (export_round_trip df Hne) as (body & _ & _ & R).
  { eapply returned_table_rows; eassumption. }
  split; [exact R|]. split; [exact Hne|].
  simpl. right. right. left. reflexivity.
Qed.

Lemma download_reads_back_as_shown_witness :
  exists content table,
    In (StDownload content)
       (trace (main USEastern.utcoffset (Examples.provider Examples.three_days)
                 Examples.now "spy" true))
    /\ read_csv content = Some table /\ table <> []
    /\ In (StDataframe (display table))
          (trace (main USEastern.utcoffset (Examples.provider Examples.three_days)
                    Examples.now "spy" true)).
Proof.
  assert (Hin : In (StDownload
                      (export_to_csv
                         match outcome (process_data_for_intervals USEastern.utcoffset
                                          Examples.three_days "SPY" Examples.now) with
                         | Ok (Some df) => df
                         | _ => []
                         end "SPY"))
                   (trace (main USEastern.utcoffset
                             (Examples.provider Examples.three_days)
                             Examples.now "spy" true))).
  { vm_compute. do 6 right. left. reflexivity. }
  destruct (download_reads_back_as_shown _ _ _ _ _ _ us_eastern_ok Hin)
    as (table & R & Hne & Hs).
  eexists. exists table. split; [exact Hin|]. split; [exact R|].
  split; [exact Hne | exact Hs].
Defined.

(** ** Bars outside the last ten days *)

Lemma mapM_app_Some {A B} (f : A -> option B) (l l' : list A) (k' : list B) :
  mapM f l' = Some k' ->
  mapM f (l ++ l') = fmap (fun k => k ++ k') (mapM f l).
Proof.
  intros H. induction l as [|x l IH]; simpl.
  - rewrite H. reflexivity.
  - destruct (f x) as [b|]; [|reflexivity]. simpl. rewrite IH.
    destruct (mapM f l); reflexivity.
Qed.

Lemma lookback_app (now : Z) (a b : list PriceRow) :
  lookback now (a ++ b) = lookback now a ++ lookback now b.
Proof. unfold lookback. cbv zeta. apply List.filter_app. Qed.

Lemma lookback_outside (now : Z) (df : list PriceRow) :
  Forall (fun r => index r < now - ten_days \/ now < index r) df ->
  lookback now df = [].
Proof.
  induction 1 as [|r df Hr _ IH]; [reflexivity|].
  unfold lookback in *. cbv zeta in *. simpl. rewrite IH.
  destruct (Z.leb_spec (now - ten_days) (index r)), (Z.leb_spec (index r) now);
    simpl; (reflexivity || lia).
Qed.

(** X19: bars stamped before the ten days or after the clock leave no
    trace: added to a series that has a bar, they change nothing in the
    outcome of the aggregation. *)
Theorem bars_outside_window_change_nothing
    (utcoffset : Z -> Z) (bars extra : list (string * RawBar))
    (symbol : string) (now : Z) :
  bars <> [] ->
  Forall (fun kb => exists t, to_datetime (fst kb) = Some t
                              /\ (t < now - ten_days \/ now < t)) extra ->
  process_data_for_intervals utcoffset (JSeries (bars ++ extra)) symbol now
  = process_data_for_intervals utcoffset (JSeries bars) symbol now.
Proof.
  intros Hne Hx. rewrite !process_of_frame.
  assert (Hd : exists dfx, mapM typed extra = Some dfx
                           /\ Forall (fun r => index r < now - ten_days \/ now < index r) dfx).
  { induction Hx as [|[key bar] extra (t & Ht & Hout) _ (dfx & E & Hall)].
    - exists []. split; [reflexivity | constructor].
    - eexists. cbn [mapM]. rewrite (typed_key key bar). cbn [fst] in Ht.
      rewrite Ht, E. split; [reflexivity|]. constructor; [exact Hout | exact Hall]. }
  destruct Hd as (dfx & E & Hout).
  rewrite (mapM_app_Some typed bars extra dfx E).
  destruct bars as [|b bs]; [congruence|]. cbn [app].
  destruct (mapM typed (b :: bs)) as [df|]; [|reflexivity].
  cbn [fmap option_fmap option_map].
  rewrite lookback_app, (lookback_outside now dfx Hout), app_nil_r. reflexivity.
Qed.

Lemma bars_outside_window_change_nothing_witness :
  process_data_for_intervals USEastern.utcoffset
    (JSeries ([("2024-01-02 14:10:00", Examples.bar "10" "12" "9" "11")]
              ++ [("2023-12-01 14:10:00", Examples.bar "1" "1" "1" "1");
                  ("2024-02-01 14:10:00", Examples.bar "5" "5" "5" "5")]))
    "SPY" Examples.now
  = process_data_for_intervals USEastern.utcoffset
      (JSeries [("2024-01-02 14:10:00", Examples.bar "10" "12" "9" "11")])
      "SPY" Examples.now.
Proof.
  apply bars_outside_window_change_nothing; [discriminate|].
  repeat constructor.
  - eexists. split; [vm_compute; reflexivity|]. left. vm_compute. reflexivity.
  - eexists. split; [vm_compute; reflexivity|]. right. vm_compute. reflexivity.
Defined.

(** ** The number of rows *)

Lemma sorted_NoDup (l : list Z) : StronglySorted Z.lt l -> List.NoDup l.
Proof.
  induction 1 as [|a l _ IH Ha]; constructor; [|exact IH].
  intros Hin. rewrite List.Forall_forall in Ha. specialize (Ha a Hin). lia.
Qed.

(** Thirteen days in a row hold at most ten days outside weekends. *)
Lemma weekdays_of_thirteen (a : Z) (l : list Z) :
  List.NoDup l -> (forall d, In d l -> a <= d <= a + 12 /\ weekday d < 5) ->
  (length l <= 10)%nat.
Proof.
  intros Hn H.
  set (cand := List.filter (fun d => weekday d <? 5)
                 (map (fun i => a + i) [0; 1; 2; 3; 4; 5; 6; 7; 8; 9; 10; 11; 12])).
  assert (Hincl : incl l cand).
  { intros d Hd. destruct (H d Hd) as [Hr Hw]. apply filter_In.
    split; [|apply Z.ltb_lt, Hw].
    apply in_map_iff. exists (d - a). split; [lia|].
    simpl. lia. }
  apply (Nat.le_trans _ (length cand)); [apply List.NoDup_incl_length; assumption|].
  assert (Hw : forall i, weekday (a + i) = (weekday a + i) mod 7).
  { intros i. unfold weekday. rewrite Z.add_mod_idemp_l by lia. f_equal. lia. }
  subst cand. cbn [map]. cbn [List.filter]. rewrite !Hw.
  pose proof (weekday_range a) as Hr.
  assert (C : weekday a = 0 \/ weekday a = 1 \/ weekday a = 2 \/ weekday a = 3
              \/ weekday a = 4 \/ weekday a = 5 \/ weekday a = 6) by lia.
  destruct C as [->|[->|[->|[->|[->|[->| ->]]]]]]; simpl; lia.
Qed.

(** X20: the table never has more than ten rows, whatever the series
    holds: the bars kept span ten days and a little, and weekends give no
    row. *)
Theorem table_has_at_most_ten_rows
    (utcoffset : Z -> Z) (data : json) (symbol : string) (now : Z)
    (t : list event) (table : list result_row) :
  zone_ok utcoffset ->
  process_data_for_intervals utcoffset data symbol now = (t, Ok (Some table)) ->
  (length table <= 10)%nat.
Proof.
  intros Hz H.
  destruct (returned_rows _ _ _ _ _ _ Hz H) as (df & _ & _ & _ & -> & _).
  unfold table_of. rewrite length_rev, length_map.
  apply (weekdays_of_thirteen (now / us_per_day - 11)).
  - apply sorted_NoDup, trading_dates_sorted.
  - intros d Hd. apply trading_dates_In in Hd. destruct Hd as [Hw (r & Hr & <-)].
    split; [|exact Hw]. apply lookback_In in Hr. destruct Hr as [_ Hr].
    pose proof (Hz (index r)) as Ho.
    unfold local_date, wall_clock, ten_days, us_per_day, us_per_second in *.
    Z.div_mod_to_equations. lia.
Qed.

Lemma table_has_at_most_ten_rows_witness :
  exists table,
    process_data_for_intervals USEastern.utcoffset Examples.three_days "SPY"
      Examples.now = ([], Ok (Some table))
    /\ (length table <= 10)%nat.
Proof.
  eexists. split; [vm_compute; reflexivity|].
  eapply (table_has_at_most_ten_rows USEastern.utcoffset Examples.three_days "SPY"
            Examples.now); [exact us_eastern_ok | vm_compute; reflexivity].
Defined.
